(** * Dependency checklist of [src/preprocess/common.py]

    A shallow embedding of the class [Test] (the pre-flight dependency
    checker) together with the part of the Python runtime it talks to:
    the object heap (dicts, mapping proxies, instances), the [subprocess]
    primitives it calls and [importlib.import_module].

    Python code is embedded in a state-and-exception monad over a [world]
    that carries the heap, the supply of process ids and the trace of
    observable events (process creation, waiting, imports). *)

From Stdlib Require Import ZArith.
From stdpp Require Import gmap strings list.

Local Open Scope string_scope.
Local Open Scope list_scope.

(** ** Python values used by the checker *)

(** A probe command is a tuple of words ([t.Tuple] in the source). *)
Abbreviation command := (list string).

(** A [dict] keeps insertion order and has at most one entry per key:
    an association list, updated in place by [dict_set]. *)
Abbreviation pydict := (list (string * list string)).

Definition dict_get (d : pydict) (k : string) : option command :=
  snd <$> List.find (fun kv => String.eqb (fst kv) k) d.

Definition dict_contains (d : pydict) (k : string) : bool :=
  bool_decide (is_Some (dict_get d k)).

Definition dict_keys (d : pydict) : list string := fst <$> d.

Definition dict_items (d : pydict) : list (string * command) := d.

(** [d[k] = v]: overwrite the entry of [k] where it stands, or append a
    new entry at the end. *)
Fixpoint dict_set (d : pydict) (k : string) (v : command) : pydict :=
  match d with
  | [] => [(k, v)]
  | (k', v') :: rest =>
      if String.eqb k' k then (k, v) :: rest else (k', v') :: dict_set rest k v
  end.

(** [sep.join(words)]. *)
Fixpoint join (sep : string) (words : list string) : string :=
  match words with
  | [] => EmptyString
  | [w] => w
  | w :: rest => w +:+ sep +:+ join sep rest
  end.

(** [x in cmds] and [cmds.index(x)] on a tuple of words.  [index] is only
    called by the source under [x in cmds]; out of that it returns the
    length here where Python raises [ValueError]. *)
Definition contains (x : string) (cmds : command) : bool :=
  existsb (String.eqb x) cmds.

Fixpoint index (x : string) (cmds : command) : nat :=
  match cmds with
  | [] => O
  | c :: rest => if String.eqb c x then O else S (index x rest)
  end.

(** ** Exceptions *)

(** Exceptions raised by the interpreter and the standard library.  The
    classes that the source names in an [except] clause are kept apart
    from their siblings: [PermissionError] is an [OSError] beside
    [FileNotFoundError], [ModuleNotFoundError] is the subclass of
    [ImportError] raised when a module cannot be located, and
    [OtherError] stands for every class unrelated to the ones listed. *)
Inductive builtin_exn :=
| FileNotFoundError (filename : string)
| PermissionError (filename : string)
| CalledProcessError (returncode : Z) (cmd : command)
| KeyError (message : string)
| TypeError (message : string)
| AttributeError (message : string)
| ImportError (message : string)
| ModuleNotFoundError (name : string)
| OtherError (class message : string).

(** The two exception classes the module defines itself carry the message
    built by their [__init__]. *)
Inductive exn :=
| Builtin (e : builtin_exn)
| UninstalledDependencyError (message : string)
| MissingModuleError (message : string).

Coercion Builtin : builtin_exn >-> exn.

Definition UninstalledDependencyError_init (item : string) (msg : string) : exn :=
  UninstalledDependencyError (item +:+ " not installed ... " +:+ msg).

Definition MissingModuleError_init (item : string) (msg : string) : exn :=
  MissingModuleError
    ("python module(s) - '" +:+ item +:+ "' cannot be found ... " +:+ msg).

(** [except FileNotFoundError]: the class has no subclass here. *)
Definition isinstance_FileNotFoundError (e : exn) : bool :=
  match e with
  | Builtin (FileNotFoundError _) => true
  | _ => false
  end.

(** [except ImportError]: catches the class and its subclass. *)
Definition isinstance_ImportError (e : exn) : bool :=
  match e with
  | Builtin (ImportError _) | Builtin (ModuleNotFoundError _) => true
  | _ => false
  end.

(** ** The world: heap, processes and trace *)

Definition loc := nat.
Definition pid := nat.

(** Heap objects: a [dict], a [MappingProxyType] wrapping the dict at an
    address (a read-only view, it holds the reference and no copy), and an
    instance of [Test] with its two attributes. *)
Inductive obj :=
| ODict (d : pydict)
| OProxy (mapping : loc)
| OTest (ubuntu_todos : loc) (python_modules : list string).

(** Where a standard stream of a child process is connected. *)
Inductive stream :=
| Inherit                 (* the parent's own stream: the user's console *)
| DevNull                 (* [subprocess.DEVNULL] *)
| Pipe                    (* [subprocess.PIPE]: read by the parent *)
| PipeOf (producer : pid) (* the stdout pipe of another child *).

Inductive event :=
| LaunchFailed (args : command) (e : builtin_exn)
| Spawn (p : pid) (args : command) (stdin stdout stderr : stream)
| Wait (p : pid)
| ImportModule (name : string).

Record world := World {
  heap : gmap loc obj;
  next_loc : loc;
  next_pid : pid;
  trace : list event
}.

(** What creating a process does: raise, or start a child that will
    exit with a return code.  Children are taken to exit: a probe that
    hangs, for which the source sets no timeout, is outside the model. *)
Inductive launch_outcome :=
| LaunchRaises (e : builtin_exn)
| Runs (returncode : Z).

(** The execution environment: the installed/missing state of the machine.
    [launch producer args] is the fate of a child created with argument
    vector [args], whose stdin is the stdout of a child running
    [producer] when there is one.  [import_module name] is [None] when the
    import succeeds.  [repr] is Python's [repr] on strings. *)
Record environment := Environment {
  launch : option command -> command -> launch_outcome;
  import_module : string -> option builtin_exn;
  repr : string -> string
}.

(** ** The monad *)

Inductive result (A : Type) :=
| Return (a : A)
| Raise (e : exn).
Arguments Return {A} a.
Arguments Raise {A} e.

Definition M (A : Type) : Type := world -> result A * world.

Definition ret {A} (a : A) : M A := fun w => (Return a, w).

Definition raise {A} (e : exn) : M A := fun w => (Raise e, w).

Definition bind {A B} (m : M A) (f : A -> M B) : M B :=
  fun w =>
    match m w with
    | (Return a, w') => f a w'
    | (Raise e, w') => (Raise e, w')
    end.

(** [try: body / except C: handler], [C] given by its [isinstance] test. *)
Definition try_except {A} (body : M A) (C : exn -> bool) (handler : M A) : M A :=
  fun w =>
    match body w with
    | (Raise e, w') => if C e then handler w' else (Raise e, w')
    | r => r
    end.

Declare Scope py_scope.
Delimit Scope py_scope with py.
Notation "x <- m ;; k" := (bind m (fun x => k))
  (at level 100, m at next level, right associativity) : py_scope.
Notation "m ;;; k" := (bind m (fun _ => k))
  (at level 100, right associativity) : py_scope.
Local Open Scope py_scope.

Definition emit (ev : event) : M unit :=
  fun w => (Return tt,
            {| heap := heap w; next_loc := next_loc w;
               next_pid := next_pid w; trace := (trace w ++ [ev])%list |}).

Definition alloc (o : obj) : M loc :=
  fun w => (Return (next_loc w),
            {| heap := <[next_loc w := o]> (heap w); next_loc := S (next_loc w);
               next_pid := next_pid w; trace := trace w |}).

Definition store (l : loc) (o : obj) : M unit :=
  fun w => (Return tt,
            {| heap := <[l := o]> (heap w); next_loc := next_loc w;
               next_pid := next_pid w; trace := trace w |}).

Definition fresh_pid : M pid :=
  fun w => (Return (next_pid w),
            {| heap := heap w; next_loc := next_loc w;
               next_pid := S (next_pid w); trace := trace w |}).

(** Reading an object through a reference.  Python references never
    dangle; the error case keeps the function total. *)
Definition deref (l : loc) : M obj :=
  fun w =>
    match heap w !! l with
    | Some o => (Return o, w)
    | None => (Raise (Builtin (OtherError "ReferenceError" "dangling")), w)
    end.

(** ** Heap operations of the interpreter *)

(** [MappingProxyType(mapping)]: a new proxy object that refers to the
    mapping it is given.  The mappings of this heap are dicts and proxies.
    A proxy never changes the mapping it shows, so a proxy of a proxy
    reads the same dict as the proxy it wraps and is recorded with the
    address of that dict.  Any other object is refused. *)
Definition MappingProxyType (mapping : loc) : M loc :=
  o <- deref mapping ;;
  match o with
  | ODict _ => alloc (OProxy mapping)
  | OProxy underlying => alloc (OProxy underlying)
  | OTest _ _ =>
      raise (TypeError "mappingproxy() argument must be a mapping, not Test")
  end.

(** The dict a proxy shows, read through the reference at each use. *)
Definition proxy_dict (proxy : loc) : M pydict :=
  o <- deref proxy ;;
  match o with
  | OProxy mapping =>
      o' <- deref mapping ;;
      match o' with
      | ODict d => ret d
      | _ => raise (TypeError "not a mapping")
      end
  | _ => raise (TypeError "not a mappingproxy")
  end.

Definition proxy_contains (proxy : loc) (k : string) : M bool :=
  d <- proxy_dict proxy ;; ret (dict_contains d k).

Definition proxy_getitem (env : environment) (proxy : loc) (k : string) : M command :=
  d <- proxy_dict proxy ;;
  match dict_get d k with
  | Some v => ret v
  | None => raise (KeyError (repr env k))
  end.

Definition proxy_keys (proxy : loc) : M (list string) :=
  d <- proxy_dict proxy ;; ret (dict_keys d).

Definition proxy_items (proxy : loc) : M (list (string * command)) :=
  d <- proxy_dict proxy ;; ret (dict_items d).

(** [str(d.keys())], as an f-string renders it. *)
Definition str_dict_keys (env : environment) (keys : list string) : string :=
  "dict_keys([" +:+ join ", " (repr env <$> keys) +:+ "])".

(** [target[k] = v], as a caller of the class may execute it on any
    object it holds: a dict is updated in place, a mapping proxy and an
    instance refuse item assignment. *)
Definition setitem (target : loc) (k : string) (v : command) : M unit :=
  o <- deref target ;;
  match o with
  | ODict d => store target (ODict (dict_set d k v))
  | OProxy _ =>
      raise (TypeError "'mappingproxy' object does not support item assignment")
  | OTest _ _ =>
      raise (TypeError "'Test' object does not support item assignment")
  end.

(** Attribute reads on an instance of [Test]. *)
Definition get_ubuntu_todos (self : loc) : M loc :=
  o <- deref self ;;
  match o with
  | OTest todos _ => ret todos
  | _ => raise (AttributeError "ubuntu_todos")
  end.

Definition get_python_modules (self : loc) : M (list string) :=
  o <- deref self ;;
  match o with
  | OTest _ modules => ret modules
  | _ => raise (AttributeError "python_modules")
  end.

(** ** The [subprocess] and [importlib] primitives *)

Record Popen_obj := {
  popen_pid : pid;
  popen_args : command;
  popen_returncode : Z
}.

Definition stdin_stream (stdin : option Popen_obj) : stream :=
  match stdin with
  | None => Inherit
  | Some producer => PipeOf (popen_pid producer)
  end.

(** [subprocess.Popen(args, stdin=..., stdout=..., stderr=...)]: creating
    the process either raises, leaving no child behind, or starts a child
    and returns without waiting for it.  A stream that is not passed is
    inherited from the parent. *)
Definition Popen (env : environment) (args : command)
    (stdin : option Popen_obj) (stdout stderr : stream) : M Popen_obj :=
  match launch env (popen_args <$> stdin) args with
  | LaunchRaises e => emit (LaunchFailed args e) ;;; raise e
  | Runs rc =>
      p <- fresh_pid ;;
      emit (Spawn p args (stdin_stream stdin) stdout stderr) ;;;
      ret {| popen_pid := p; popen_args := args; popen_returncode := rc |}
  end.

(** [process.wait()]. *)
Definition Popen_wait (process : Popen_obj) : M Z :=
  emit (Wait (popen_pid process)) ;;; ret (popen_returncode process).

(** [subprocess.check_call(args, stdout=..., stderr=...)]: run the
    command, wait for it, raise [CalledProcessError] on a non-zero code. *)
Definition check_call (env : environment) (args : command)
    (stdout stderr : stream) : M Z :=
  process <- Popen env args None stdout stderr ;;
  retcode <- Popen_wait process ;;
  if (retcode =? 0)%Z then ret 0%Z
  else raise (CalledProcessError retcode args).

(** [subprocess.check_output(args, stdin=...)]: as [check_call], with the
    child's stdout captured through a pipe and returned to the caller
    (the source drops it); stderr is not redirected. *)
Definition check_output (env : environment) (args : command)
    (stdin : option Popen_obj) : M unit :=
  process <- Popen env args stdin Pipe Inherit ;;
  retcode <- Popen_wait process ;;
  if (retcode =? 0)%Z then ret tt
  else raise (CalledProcessError retcode args).

(** [importlib.import_module(name)]. *)
Definition importlib_import_module (env : environment) (name : string) : M unit :=
  emit (ImportModule name) ;;;
  match import_module env name with
  | None => ret tt
  | Some e => raise e
  end.

(** ** The class [Test] *)

(** [Test.__init__]: the new instance holds a mapping proxy of the dict
    it is given and an empty tuple of modules. *)
Definition Test_init (ubuntu_commands : loc) : M loc :=
  todos <- MappingProxyType ubuntu_commands ;;
  alloc (OTest todos []).

(** [Test.run_cmd]. *)
Definition run_cmd (env : environment) (self : loc) (cmds : command) : M unit :=
  let has_pipe := contains "|" cmds in
  if has_pipe then
    let index_of_pipe := index "|" cmds in
    process_before_pipe <-
      Popen env (firstn index_of_pipe cmds) None Pipe Inherit ;;
    check_output env (skipn (index_of_pipe + 1)%nat cmds)
      (Some process_before_pipe) ;;;
    Popen_wait process_before_pipe ;;;
    ret tt
  else
    check_call env cmds DevNull DevNull ;;;
    ret tt.

(** [Test.not_installed]. *)
Definition not_installed (env : environment) (self : loc) (component : string)
    : M bool :=
  todos <- get_ubuntu_todos self ;;
  known <- proxy_contains todos component ;;
  if negb known then
    todos <- get_ubuntu_todos self ;;
    keys <- proxy_keys todos ;;
    raise (KeyError ("Invalid validation component: " +:+ component +:+ ". "
                     +:+ "Available components to validate: "
                     +:+ str_dict_keys env keys))
  else
    installed <-
      try_except
        (todos <- get_ubuntu_todos self ;;
         cmds <- proxy_getitem env todos component ;;
         run_cmd env self cmds ;;;
         ret true)
        isinstance_FileNotFoundError
        (ret false) ;;
    ret (negb installed).

(** The list comprehension [[x for x, _ in items if cond(x)]]. *)
Fixpoint comprehension (cond : string -> M bool)
    (items : list (string * command)) : M (list string) :=
  match items with
  | [] => ret []
  | (checklist_item, commands) :: rest =>
      keep <- cond checklist_item ;;
      tail <- comprehension cond rest ;;
      ret (if keep then checklist_item :: tail else tail)
  end.

(** The loop over [self.python_modules], threading the list it appends to. *)
Fixpoint import_loop (env : environment) (python_modules : list string)
    (uninstalled_python_items : list string) : M (list string) :=
  match python_modules with
  | [] => ret uninstalled_python_items
  | python_module :: rest =>
      uninstalled_python_items' <-
        try_except
          (importlib_import_module env python_module ;;;
           ret uninstalled_python_items)
          isinstance_ImportError
          (ret (uninstalled_python_items ++ [python_module])%list) ;;
      import_loop env rest uninstalled_python_items'
  end.

(** [Test.check_dependencies].  The items view is read once: nothing in
    the loop body writes to the heap. *)
Definition check_dependencies (env : environment) (self : loc) : M unit :=
  todos <- get_ubuntu_todos self ;;
  items <- proxy_items todos ;;
  uninstalled_items <- comprehension (not_installed env self) items ;;
  python_modules <- get_python_modules self ;;
  uninstalled_python_items <- import_loop env python_modules [] ;;
  if (0 <? length uninstalled_items)%nat then
    raise (UninstalledDependencyError_init (join ", " uninstalled_items)
             EmptyString)
  else if (0 <? length uninstalled_python_items)%nat then
    raise (MissingModuleError_init (join ", " uninstalled_python_items)
             EmptyString)
  else ret tt.

(** Calls that client code can make on a checker it holds, and a driver
    that performs a sequence of them (an exception ends the call that
    raised it, not the sequence). *)
Inductive call :=
| CallRunCmd (cmds : command)
| CallNotInstalled (component : string)
| CallCheckDependencies
| CallSetItem (target : loc) (k : string) (v : command).

Definition perform (env : environment) (self : loc) (c : call) (w : world) : world :=
  match c with
  | CallRunCmd cmds => snd (run_cmd env self cmds w)
  | CallNotInstalled component => snd (not_installed env self component w)
  | CallCheckDependencies => snd (check_dependencies env self w)
  | CallSetItem target k v => snd (setitem target k v w)
  end.

Definition perform_all (env : environment) (self : loc) (cs : list call)
    (w : world) : world :=
  fold_left (fun w c => perform env self c w) cs w.

(** ** Reading the trace *)

(** The world after [n] more processes were created and [evs] happened. *)
Definition advance (w : world) (n : nat) (evs : list event) : world :=
  {| heap := heap w; next_loc := next_loc w;
     next_pid := n + next_pid w; trace := (trace w ++ evs)%list |}.

Definition is_wait_of (p : pid) (ev : event) : bool :=
  match ev with
  | Wait q => Nat.eqb p q
  | _ => false
  end.

(** The children created in [evs] that nothing in [evs] waits for
    afterwards. *)
Fixpoint unwaited (evs : list event) : list pid :=
  match evs with
  | [] => []
  | Spawn p _ _ _ _ :: rest =>
      if existsb (is_wait_of p) rest then unwaited rest else p :: unwaited rest
  | _ :: rest => unwaited rest
  end.

(** A stream that reaches the user: the parent's own. *)
Definition shown_to_user (s : stream) : bool :=
  match s with
  | Inherit => true
  | _ => false
  end.

(** The children of [evs] whose stdout or stderr reaches the user. *)
Definition noisy (evs : list event) : list pid :=
  omap (fun ev =>
          match ev with
          | Spawn p _ _ out err =>
              if shown_to_user out || shown_to_user err then Some p else None
          | _ => None
          end) evs.

(** An attempt, failed or not, to create a process with vector [args]. *)
Definition is_launch_of (args : command) (ev : event) : bool :=
  match ev with
  | LaunchFailed a _ => bool_decide (a = args)
  | Spawn _ a _ _ _ => bool_decide (a = args)
  | _ => false
  end.

(** The vector of the first process a probe command creates. *)
Definition first_stage (cmds : command) : command :=
  if contains "|" cmds then firstn (index "|" cmds) cmds else cmds.

(** [self] is a checker over the dict [d] with module tuple [modules]:
    an instance whose [ubuntu_todos] is a proxy of a dict holding [d]. *)
Definition is_checker (w : world) (self : loc) (d : pydict)
    (modules : list string) : Prop :=
  exists todos mapping,
    heap w !! self = Some (OTest todos modules) /\
    heap w !! todos = Some (OProxy mapping) /\
    heap w !! mapping = Some (ODict d).

#[export] Instance builtin_exn_eq_dec : EqDecision builtin_exn.
Proof. solve_decision. Defined.
#[export] Instance exn_eq_dec : EqDecision exn.
Proof. solve_decision. Defined.
#[export] Instance result_eq_dec {A} `{EqDecision A} : EqDecision (result A).
Proof. solve_decision. Defined.

(** The verdict of a probe, as a test: [probe(k)] returns [True]. *)
Definition reports_missing (env : environment) (self : loc) (w : world)
    (k : string) : bool :=
  bool_decide (fst (not_installed env self k w) = Return true).

(** The import of [name] raises an exception that [except ImportError]
    catches. *)
Definition import_caught (env : environment) (name : string) : bool :=
  match import_module env name with
  | Some e => isinstance_ImportError e
  | None => false
  end.

(** The import of [name] succeeds or raises what the loop catches. *)
Definition import_settles (env : environment) (name : string) : bool :=
  match import_module env name with
  | Some e => isinstance_ImportError e
  | None => true
  end.

(** Code whose only effects are new processes and new events: the heap
    and the allocation pointer are as before. *)
Definition framed {A} (m : M A) : Prop :=
  forall w, exists n evs, snd (m w) = advance w n evs.

(** Framed code that raises nothing but built-in exceptions. *)
Definition tame {A} (m : M A) : Prop :=
  forall w,
    (exists n evs, snd (m w) = advance w n evs) /\
    (forall e, fst (m w) = Raise e -> exists b, e = Builtin b).

(** An attempt to import a module. *)
Definition is_import (ev : event) : bool :=
  match ev with
  | ImportModule _ => true
  | _ => false
  end.

(** An attempt, failed or not, to create a process. *)
Definition is_launch (ev : event) : bool :=
  match ev with
  | LaunchFailed _ _ | Spawn _ _ _ _ _ => true
  | _ => false
  end.

(** ** A machine to run the checker on *)

Module Demo.

Definition repr (s : string) : string := "'" +:+ s +:+ "'".

(** [nvcc], [dpkg], [cat] and [sh] are installed and succeed; [grep]
    is installed and finds nothing (exit code 1); [ls] is installed and
    fails on a missing file (exit code 2); nothing else is installed. *)
Definition launch (producer : option command) (args : command)
    : launch_outcome :=
  match args with
  | "nvcc" :: _ | "dpkg" :: _ | "cat" :: _ | "sh" :: _ => Runs 0
  | "grep" :: _ => Runs 1
  | "ls" :: _ => Runs 2
  | exe :: _ => LaunchRaises (FileNotFoundError exe)
  | [] => LaunchRaises (OtherError "IndexError" "list index out of range")
  end.

(** [numpy] imports; [torch] is installed but fails to load a shared
    library; [broken] has a syntax error; no other module exists. *)
Definition import_module (name : string) : option builtin_exn :=
  if String.eqb name "numpy" then None
  else if String.eqb name "torch" then
    Some (ImportError "libcudart.so: cannot open shared object file")
  else if String.eqb name "broken" then
    Some (OtherError "SyntaxError" "invalid syntax")
  else Some (ModuleNotFoundError name).

Definition env : environment :=
  Environment launch import_module repr.

(** Probes that all answer: one plain and installed, two missing, one
    piped and installed. *)
Definition todos : pydict :=
  [("cuda", ["nvcc"; "--version"]);
   ("deepstream", ["deepstream-app"; "--version"]);
   ("driver", ["dpkg"; "-l"; "|"; "cat"]);
   ("tensorrt", ["trtexec"; "--help"])].

(** Probes with a failing stage: a pipe into a [grep] that finds
    nothing, a pipe into a missing program, a plain command that fails. *)
Definition failing : pydict :=
  [("cudnn", ["dpkg"; "-l"; "|"; "grep"; "cudnn"]);
   ("opencv", ["dpkg"; "-l"; "|"; "rg"; "opencv"]);
   ("header", ["ls"; "/usr/include/cudnn.h"])].

(** A heap with the caller's dict at address 0 and nothing else. *)
Definition caller_world (d : pydict) : world :=
  {| heap := {[ 0 := ODict d ]}; next_loc := 1; next_pid := 0; trace := [] |}.

(** The heap once a checker was built over that dict: the proxy at 1 and
    the instance at 2, here with the module tuple [modules] assigned to
    its public attribute. *)
Definition checker_world (d : pydict) (modules : list string) : world :=
  {| heap := <[ 2 := OTest 1 modules ]> (<[ 1 := OProxy 0 ]> {[ 0 := ODict d ]});
     next_loc := 3; next_pid := 0; trace := [] |}.

Definition self : loc := 2.

End Demo.

(** * Properties *)

(** ** Frame *)

Lemma advance_0_nil (w : world) : advance w 0 [] = w.
Proof. destruct w. unfold advance. simpl. rewrite app_nil_r. reflexivity. Qed.

Lemma advance_advance (w : world) n m evs evs' :
  advance (advance w n evs) m evs' = advance w (m + n) (evs ++ evs').
Proof.
  unfold advance. simpl. f_equal; [lia | apply eq_sym, app_assoc].
Qed.

Lemma tame_ret {A} (a : A) : tame (ret a).
Proof.
  intros w. split; [exists 0, []; simpl; rewrite advance_0_nil; reflexivity|].
  discriminate.
Qed.

Lemma tame_raise {A} (b : builtin_exn) : tame (@raise A (Builtin b)).
Proof.
  intros w. split; [exists 0, []; simpl; rewrite advance_0_nil; reflexivity|].
  simpl. intros e [= <-]. eauto.
Qed.

Lemma tame_bind {A B} (m : M A) (f : A -> M B) :
  tame m -> (forall a, tame (f a)) -> tame (bind m f).
Proof.
  intros Hm Hf w. unfold bind. destruct (Hm w) as [(n & evs & Hs) Hr].
  destruct (m w) as [[a|e] w1]; simpl in Hs, Hr; subst w1.
  - destruct (Hf a (advance w n evs)) as [(n' & evs' & Hs') Hr'].
    split; [|exact Hr']. rewrite Hs', advance_advance. eauto.
  - split; [simpl; eauto|]. simpl. intros e0 [= <-]. apply Hr. reflexivity.
Qed.

Lemma tame_try_except {A} (body handler : M A) (C : exn -> bool) :
  tame body -> tame handler -> tame (try_except body C handler).
Proof.
  intros Hb Hh w. unfold try_except. destruct (Hb w) as [(n & evs & Hs) Hr].
  destruct (body w) as [[a|e] w1]; simpl in Hs, Hr; subst w1.
  - split; [simpl; eauto|discriminate].
  - destruct (C e).
    + destruct (Hh (advance w n evs)) as [(n' & evs' & Hs') Hr'].
      split; [|exact Hr']. rewrite Hs', advance_advance. eauto.
    + split; [simpl; eauto|exact Hr].
Qed.

Lemma tame_emit (ev : event) : tame (emit ev).
Proof. intros w. split; [exists 0, [ev]; reflexivity|discriminate]. Qed.

Lemma tame_fresh_pid : tame fresh_pid.
Proof.
  intros w. split; [|discriminate]. exists 1, []. unfold advance. simpl.
  rewrite app_nil_r. reflexivity.
Qed.

Lemma tame_deref (l : loc) : tame (deref l).
Proof.
  intros w. unfold deref. destruct (heap w !! l); simpl.
  - split; [exists 0, []; rewrite advance_0_nil; reflexivity|discriminate].
  - split; [exists 0, []; rewrite advance_0_nil; reflexivity|].
    intros e [= <-]. eauto.
Qed.

Create HintDb tame.
#[export] Hint Resolve tame_ret tame_raise tame_emit tame_fresh_pid tame_deref
  : tame.

(** Decompose a checker method into its steps. *)
Ltac tame_steps :=
  repeat first
    [ apply tame_bind; [|intros ?]
    | apply tame_try_except
    | solve [auto with tame]
    | match goal with
      | |- tame (match ?x with _ => _ end) => destruct x
      | |- tame (if ?b then _ else _) => destruct b
      end ].

Lemma tame_Popen env args stdin out err : tame (Popen env args stdin out err).
Proof. unfold Popen. tame_steps. Qed.

Lemma tame_Popen_wait process : tame (Popen_wait process).
Proof. unfold Popen_wait. tame_steps. Qed.

#[export] Hint Resolve tame_Popen tame_Popen_wait : tame.

Lemma tame_check_call env args out err : tame (check_call env args out err).
Proof. unfold check_call. tame_steps. Qed.

Lemma tame_check_output env args stdin : tame (check_output env args stdin).
Proof. unfold check_output. tame_steps. Qed.

#[export] Hint Resolve tame_check_call tame_check_output : tame.

Lemma tame_run_cmd env self cmds : tame (run_cmd env self cmds).
Proof. unfold run_cmd. tame_steps. Qed.

Lemma tame_get_ubuntu_todos self : tame (get_ubuntu_todos self).
Proof. unfold get_ubuntu_todos. tame_steps. Qed.

Lemma tame_get_python_modules self : tame (get_python_modules self).
Proof. unfold get_python_modules. tame_steps. Qed.

Lemma tame_proxy_dict proxy : tame (proxy_dict proxy).
Proof. unfold proxy_dict. tame_steps. Qed.

#[export] Hint Resolve tame_run_cmd tame_get_ubuntu_todos
  tame_get_python_modules tame_proxy_dict : tame.

Lemma tame_proxy_contains proxy k : tame (proxy_contains proxy k).
Proof. unfold proxy_contains. tame_steps. Qed.

Lemma tame_proxy_getitem env proxy k : tame (proxy_getitem env proxy k).
Proof. unfold proxy_getitem. tame_steps. Qed.

Lemma tame_proxy_keys proxy : tame (proxy_keys proxy).
Proof. unfold proxy_keys. tame_steps. Qed.

Lemma tame_proxy_items proxy : tame (proxy_items proxy).
Proof. unfold proxy_items. tame_steps. Qed.

#[export] Hint Resolve tame_proxy_contains tame_proxy_getitem tame_proxy_keys
  tame_proxy_items : tame.

Lemma tame_not_installed env self component :
  tame (not_installed env self component).
Proof. unfold not_installed. tame_steps. Qed.

#[export] Hint Resolve tame_not_installed : tame.

Lemma tame_comprehension (cond : string -> M bool) items :
  (forall k, tame (cond k)) -> tame (comprehension cond items).
Proof.
  intros Hcond. induction items as [|[k c] rest IH]; simpl; tame_steps.
Qed.

Lemma tame_importlib_import_module env name :
  tame (importlib_import_module env name).
Proof. unfold importlib_import_module. tame_steps. Qed.

#[export] Hint Resolve tame_importlib_import_module : tame.

Lemma tame_import_loop env mods acc : tame (import_loop env mods acc).
Proof.
  revert acc. induction mods as [|name rest IH]; intros acc; simpl; tame_steps.
Qed.

#[export] Hint Resolve tame_import_loop : tame.

Lemma framed_bind {A B} (m : M A) (f : A -> M B) :
  tame m -> (forall a, framed (f a)) -> framed (bind m f).
Proof.
  intros Hm Hf w. unfold bind. destruct (Hm w) as [(n & evs & Hs) _].
  destruct (m w) as [[a|e] w1]; simpl in Hs; subst w1; [|simpl; eauto].
  destruct (Hf a (advance w n evs)) as (n' & evs' & Hs').
  rewrite Hs', advance_advance. eauto.
Qed.

Lemma framed_check_dependencies env self : framed (check_dependencies env self).
Proof.
  unfold check_dependencies.
  repeat (apply framed_bind;
          [auto using tame_comprehension with tame|intros ?]).
  repeat match goal with |- framed (if ?b then _ else _) => destruct b end;
    intros w; exists 0, []; rewrite advance_0_nil; reflexivity.
Qed.


(** ** [run_cmd], case by case *)

Lemma contains_split (x : string) (pre post : command) :
  contains x (pre ++ x :: post) = true.
Proof.
  unfold contains. rewrite existsb_app. simpl.
  rewrite String.eqb_refl. apply orb_true_iff. right. reflexivity.
Qed.

Lemma index_split (x : string) (pre post : command) :
  contains x pre = false -> index x (pre ++ x :: post) = length pre.
Proof.
  induction pre as [|c pre IH]; simpl; intros H.
  - rewrite String.eqb_refl. reflexivity.
  - apply orb_false_iff in H as [Hc Hpre].
    rewrite String.eqb_sym, Hc. f_equal. apply IH, Hpre.
Qed.

Lemma second_stage_split (pre post : command) :
  contains "|" pre = false ->
  skipn (index "|" (pre ++ "|" :: post) + 1) (pre ++ "|" :: post) = post.
Proof.
  intros H. rewrite index_split by exact H.
  rewrite skipn_app, skipn_all2 by lia.
  replace (length pre + 1 - length pre) with 1 by lia. reflexivity.
Qed.

(** Without a pipe token: one child, output to the null device, always
    waited for; a non-zero code raises. *)
Lemma run_cmd_plain (env : environment) (self : loc) (cmds : command) (w : world) :
  contains "|" cmds = false ->
  run_cmd env self cmds w =
    match launch env None cmds with
    | LaunchRaises e => (Raise (Builtin e), advance w 0 [LaunchFailed cmds e])
    | Runs rc =>
        (if (rc =? 0)%Z then Return tt
         else Raise (Builtin (CalledProcessError rc cmds)),
         advance w 1 [Spawn (next_pid w) cmds Inherit DevNull DevNull;
                      Wait (next_pid w)])
    end.
Proof.
  intros Hpipe. unfold run_cmd. rewrite Hpipe.
  unfold check_call, Popen, bind. simpl.
  destruct (launch env None cmds) as [e|rc]; simpl; [reflexivity|].
  unfold advance. simpl. rewrite <- app_assoc. simpl.
  destruct (rc =? 0)%Z; reflexivity.
Qed.

(** With a pipe token: the stage before it is created first, then the
    stage after it, run by [check_output]; the first child is waited for
    on the one path where [check_output] returns. *)
Lemma run_cmd_piped (env : environment) (self : loc) (cmds : command) (w : world) :
  contains "|" cmds = true ->
  let before := firstn (index "|" cmds) cmds in
  let after := skipn (index "|" cmds + 1) cmds in
  let p := next_pid w in
  run_cmd env self cmds w =
    match launch env None before with
    | LaunchRaises e => (Raise (Builtin e), advance w 0 [LaunchFailed before e])
    | Runs _ =>
        match launch env (Some before) after with
        | LaunchRaises e =>
            (Raise (Builtin e),
             advance w 1 [Spawn p before Inherit Pipe Inherit;
                          LaunchFailed after e])
        | Runs rc =>
            if (rc =? 0)%Z then
              (Return tt,
               advance w 2 [Spawn p before Inherit Pipe Inherit;
                            Spawn (S p) after (PipeOf p) Pipe Inherit;
                            Wait (S p); Wait p])
            else
              (Raise (Builtin (CalledProcessError rc after)),
               advance w 2 [Spawn p before Inherit Pipe Inherit;
                            Spawn (S p) after (PipeOf p) Pipe Inherit;
                            Wait (S p)])
        end
    end.
Proof.
  intros Hpipe before after p. unfold run_cmd. rewrite Hpipe.
  fold before after. unfold check_output, Popen, bind. simpl.
  destruct (launch env None before) as [e|rc1]; simpl; [reflexivity|].
  destruct (launch env (Some before) after) as [e|rc2];
    simpl.
  - unfold advance. simpl. rewrite <- app_assoc. reflexivity.
  - unfold advance. simpl. rewrite <- !app_assoc. simpl.
    destruct (rc2 =? 0)%Z; simpl; rewrite <- ?app_assoc; reflexivity.
Qed.

(** The verdict of [run_cmd] depends on the environment and the command
    alone, and its only effects are new processes and new events. *)
Lemma run_cmd_fst (env : environment) (self self' : loc) (cmds : command)
    (w w' : world) :
  fst (run_cmd env self cmds w) = fst (run_cmd env self' cmds w').
Proof.
  destruct (contains "|" cmds) eqn:Hpipe.
  - rewrite !run_cmd_piped by exact Hpipe.
    destruct (launch env None _); [reflexivity|].
    destruct (launch env (Some _) _) as [|rc]; [reflexivity|].
    destruct (rc =? 0)%Z; reflexivity.
  - rewrite !run_cmd_plain by exact Hpipe.
    destruct (launch env None cmds); reflexivity.
Qed.

(** The first launch of [run_cmd] is that of the command's first stage. *)
Lemma run_cmd_launches (env : environment) (self : loc) (cmds : command)
    (w : world) :
  exists n evs,
    snd (run_cmd env self cmds w) = advance w n evs /\
    existsb (is_launch_of (first_stage cmds)) evs = true.
Proof.
  unfold first_stage. destruct (contains "|" cmds) eqn:Hpipe.
  - rewrite run_cmd_piped by exact Hpipe.
    destruct (launch env None _); [|destruct (launch env (Some _) _) as [|rc];
      [|destruct (rc =? 0)%Z]]; do 2 eexists; (split; [reflexivity|]);
      simpl; rewrite bool_decide_eq_true_2 by reflexivity; reflexivity.
  - rewrite run_cmd_plain by exact Hpipe.
    destruct (launch env None cmds); do 2 eexists; (split; [reflexivity|]);
      simpl; rewrite bool_decide_eq_true_2 by reflexivity; reflexivity.
Qed.

(** ** [not_installed] on a checker *)

Lemma is_checker_heap (w w' : world) self d modules :
  heap w' = heap w -> is_checker w self d modules -> is_checker w' self d modules.
Proof. unfold is_checker. intros ->. trivial. Qed.

Lemma dict_contains_get (d : pydict) (k : string) :
  dict_contains d k = match dict_get d k with Some _ => true | None => false end.
Proof.
  unfold dict_contains. destruct (dict_get d k).
  - apply bool_decide_eq_true_2. eauto.
  - apply bool_decide_eq_false_2. intros [? [=]].
Qed.

(** Every key of a dict has an entry. *)
Lemma dict_keys_get (d : pydict) (k : string) :
  k ∈ dict_keys d -> is_Some (dict_get d k).
Proof.
  intros Hk. unfold dict_get.
  destruct (List.find _ d) as [kv|] eqn:Hfind; [eauto|exfalso].
  apply list_elem_of_fmap in Hk as ([k' c] & -> & Hin).
  apply list_elem_of_In in Hin.
  pose proof (find_none _ _ Hfind _ Hin) as Hne. simpl in Hne.
  rewrite String.eqb_refl in Hne. discriminate.
Qed.

(** On a checker, [not_installed] is the key test followed by [run_cmd]
    under the handler. *)
Lemma not_installed_unfold (env : environment) (w : world) self d modules k :
  is_checker w self d modules ->
  not_installed env self k w =
    match dict_get d k with
    | None =>
        (Raise (Builtin (KeyError
           ("Invalid validation component: " +:+ k +:+ ". "
            +:+ "Available components to validate: "
            +:+ str_dict_keys env (dict_keys d)))), w)
    | Some cmds =>
        match run_cmd env self cmds w with
        | (Return _, w') => (Return false, w')
        | (Raise e, w') =>
            if isinstance_FileNotFoundError e then (Return true, w')
            else (Raise e, w')
        end
    end.
Proof.
  intros (todos & mapping & Hs & Ht & Hm).
  unfold not_installed, get_ubuntu_todos, proxy_contains, proxy_keys,
    proxy_getitem, proxy_dict, try_except, bind, deref, ret, raise.
  rewrite Hs, Ht, Hm, dict_contains_get.
  destruct (dict_get d k) as [cmds|] eqn:Hk; simpl;
    rewrite Hs; simpl; rewrite Ht; simpl; rewrite Hm; simpl; [|reflexivity].
  rewrite Hk.
  destruct (run_cmd env self cmds w) as [[[]|e] w']; [reflexivity|].
  destruct (isinstance_FileNotFoundError e); reflexivity.
Qed.

Lemma not_installed_fst (env : environment) (w w' : world) self d modules k :
  is_checker w self d modules -> heap w' = heap w ->
  fst (not_installed env self k w') = fst (not_installed env self k w).
Proof.
  intros Hc Hh. pose proof (is_checker_heap _ _ _ _ _ Hh Hc) as Hc'.
  rewrite (not_installed_unfold _ _ _ _ _ _ Hc), (not_installed_unfold _ _ _ _ _ _ Hc').
  destruct (dict_get d k) as [cmds|]; [|reflexivity].
  pose proof (run_cmd_fst env self self cmds w w') as Hf.
  destruct (run_cmd env self cmds w) as [[[]|e] w1],
    (run_cmd env self cmds w') as [[[]|e'] w1']; simpl in Hf;
    try discriminate; [reflexivity|].
  injection Hf as ->. destruct (isinstance_FileNotFoundError e'); reflexivity.
Qed.

Lemma not_installed_launches (env : environment) (w : world) self d modules k cmds :
  is_checker w self d modules -> dict_get d k = Some cmds ->
  exists n evs,
    snd (not_installed env self k w) = advance w n evs /\
    existsb (is_launch_of (first_stage cmds)) evs = true.
Proof.
  intros Hc Hk. rewrite (not_installed_unfold _ _ _ _ _ _ Hc), Hk.
  destruct (run_cmd_launches env self cmds w) as (n & evs & Hw & Hl).
  destruct (run_cmd env self cmds w) as [[[]|e] w']; simpl in Hw; subst w';
    [|destruct (isinstance_FileNotFoundError e)]; eauto.
Qed.

(** ** The two scans of [check_dependencies] *)

Lemma comprehension_cons (cond : string -> M bool) (k : string) (c : command)
    (rest : list (string * command)) (w : world) :
  comprehension cond ((k, c) :: rest) w =
    match cond k w with
    | (Return keep, w1) =>
        match comprehension cond rest w1 with
        | (Return tail, w2) => (Return (if keep then k :: tail else tail), w2)
        | (Raise e, w2) => (Raise e, w2)
        end
    | (Raise e, w1) => (Raise e, w1)
    end.
Proof. reflexivity. Qed.

(** The comprehension calls [not_installed] on every item, in order; it
    returns the keys whose probe said [True] once all probes have
    answered, and it raises what the first raising probe raised.  Probe
    verdicts are read in [w0], any world with the same heap. *)
Lemma comprehension_spec (env : environment) self d modules (w0 : world)
    (items : list (string * command)) :
  is_checker w0 self d modules ->
  (forall k, k ∈ items.*1 -> is_Some (dict_get d k)) ->
  forall w, heap w = heap w0 ->
  exists n evs,
    snd (comprehension (not_installed env self) items w) = advance w n evs /\
    match fst (comprehension (not_installed env self) items w) with
    | Return l =>
        l = List.filter (reports_missing env self w0) items.*1 /\
        (forall k, k ∈ items.*1 ->
           exists b, fst (not_installed env self k w0) = Return b) /\
        (forall k cmds, k ∈ items.*1 -> dict_get d k = Some cmds ->
           existsb (is_launch_of (first_stage cmds)) evs = true)
    | Raise e =>
        exists k, k ∈ items.*1 /\ fst (not_installed env self k w0) = Raise e
    end.
Proof.
  intros Hc0. induction items as [|[k c] rest IH]; intros Hkeys w Hh.
  - exists 0, []. simpl. rewrite advance_0_nil. repeat split.
    + intros k Hk. inversion Hk.
    + intros k cmds Hk. inversion Hk.
  - pose proof (is_checker_heap _ _ _ _ _ Hh Hc0) as Hc.
    destruct (Hkeys k) as [cmds Hcmds]; [left|].
    destruct (not_installed_launches env w self d modules k cmds Hc Hcmds)
      as (n1 & evs1 & Hw1 & Hl1).
    pose proof (not_installed_fst env w0 w self d modules k Hc0 Hh) as Hf.
    rewrite comprehension_cons.
    destruct (not_installed env self k w) as [[b|e] w1]; simpl in Hw1, Hf;
      subst w1.
    + destruct (IH (fun k' Hk' => Hkeys k' (list_elem_of_further _ _ _ Hk'))
                  (advance w n1 evs1) Hh) as (n2 & evs2 & Hw2 & Hr2).
      exists (n2 + n1), (evs1 ++ evs2).
      destruct (comprehension (not_installed env self) rest (advance w n1 evs1))
        as [[tail|e] w2]; simpl in Hw2, Hr2; subst w2; simpl;
        rewrite advance_advance; (split; [reflexivity|]).
      * destruct Hr2 as (Htail & Hall & Hlaunch).
        assert (reports_missing env self w0 k = b) as Hb.
        { unfold reports_missing. rewrite <- Hf.
          destruct b; [apply bool_decide_eq_true_2|apply bool_decide_eq_false_2];
            congruence. }
        rewrite Hb, Htail. split; [destruct b; reflexivity|]. split.
        -- intros k' Hk'. apply elem_of_cons in Hk' as [->|Hk'];
             [eauto|apply Hall, Hk'].
        -- intros k' cmds' Hk' Hget. rewrite existsb_app.
           apply orb_true_iff. apply elem_of_cons in Hk' as [->|Hk'].
           ++ left. congruence.
           ++ right. eapply Hlaunch; eassumption.
      * destruct Hr2 as (k' & Hk' & He). exists k'. split; [right|]; assumption.
    + exists n1, evs1. split; [reflexivity|]. exists k. split; [left|].
      symmetry. exact Hf.
Qed.

(** One turn of the import loop. *)
Lemma import_loop_cons (env : environment) (name : string) (rest acc : list string)
    (w : world) :
  import_loop env (name :: rest) acc w =
    match import_module env name with
    | None => import_loop env rest acc (advance w 0 [ImportModule name])
    | Some e =>
        if isinstance_ImportError (Builtin e)
        then import_loop env rest (acc ++ [name]) (advance w 0 [ImportModule name])
        else (Raise (Builtin e), advance w 0 [ImportModule name])
    end.
Proof.
  simpl. unfold bind at 1. unfold try_except, importlib_import_module, bind.
  simpl. destruct (import_module env name) as [e|]; simpl; [|reflexivity].
  destruct e; reflexivity.
Qed.

(** When the loop returns, every import settled and the list holds the
    caught names in order. *)
Lemma import_loop_return (env : environment) (mods acc l : list string) (w : world) :
  fst (import_loop env mods acc w) = Return l ->
  l = acc ++ List.filter (import_caught env) mods /\
  forallb (import_settles env) mods = true.
Proof.
  revert acc w. induction mods as [|name rest IH]; intros acc w.
  - simpl. intros [= <-]. rewrite app_nil_r. split; reflexivity.
  - rewrite import_loop_cons. simpl List.filter. simpl forallb.
    unfold import_caught at 1, import_settles at 1.
    destruct (import_module env name) as [e|].
    + destruct (isinstance_ImportError e); [|intros [=]].
      intros H. apply IH in H as [-> ->]. rewrite <- app_assoc. split; reflexivity.
    + intros H. apply IH in H as [-> ->]. split; reflexivity.
Qed.

Lemma import_loop_settled (env : environment) (mods acc : list string) (w : world) :
  forallb (import_settles env) mods = true ->
  fst (import_loop env mods acc w) =
    Return (acc ++ List.filter (import_caught env) mods).
Proof.
  revert acc w. induction mods as [|name rest IH]; intros acc w; simpl forallb.
  - intros _. simpl. rewrite app_nil_r. reflexivity.
  - intros [Hn Hrest]%andb_true_iff. rewrite import_loop_cons.
    simpl List.filter.
    assert (import_caught env name =
            match import_module env name with Some _ => true | None => false end)
      as ->.
    { unfold import_caught, import_settles in *.
      destruct (import_module env name); [exact Hn|reflexivity]. }
    unfold import_settles in Hn.
    destruct (import_module env name) as [e|].
    + rewrite Hn. rewrite IH by exact Hrest. rewrite <- app_assoc. reflexivity.
    + apply IH, Hrest.
Qed.

(** The first import that raises outside [ImportError] ends the loop
    with that exception. *)
Lemma import_loop_propagates (env : environment) (pre post acc : list string)
    (name : string) (e : builtin_exn) (w : world) :
  forallb (import_settles env) pre = true ->
  import_module env name = Some e ->
  isinstance_ImportError (Builtin e) = false ->
  fst (import_loop env (pre ++ name :: post) acc w) = Raise (Builtin e).
Proof.
  intros Hpre Hname He. revert acc w Hpre.
  induction pre as [|p pre IH]; intros acc w; simpl forallb.
  - intros _. simpl app. rewrite import_loop_cons, Hname, He. reflexivity.
  - intros [Hp Hpre]%andb_true_iff. simpl app. rewrite import_loop_cons.
    unfold import_settles in Hp.
    destruct (import_module env p) as [e'|]; [rewrite Hp|]; apply IH, Hpre.
Qed.

(** [check_dependencies] on a checker: the two scans, then the two
    tests on what they collected. *)
Lemma check_dependencies_unfold (env : environment) (w : world) self d modules :
  is_checker w self d modules ->
  check_dependencies env self w =
    match comprehension (not_installed env self) d w with
    | (Raise e, w1) => (Raise e, w1)
    | (Return uninstalled_items, w1) =>
        match import_loop env modules [] w1 with
        | (Raise e, w2) => (Raise e, w2)
        | (Return uninstalled_python_items, w2) =>
            if (0 <? length uninstalled_items)%nat then
              (Raise (UninstalledDependencyError_init
                        (join ", " uninstalled_items) EmptyString), w2)
            else if (0 <? length uninstalled_python_items)%nat then
              (Raise (MissingModuleError_init
                        (join ", " uninstalled_python_items) EmptyString), w2)
            else (Return tt, w2)
        end
    end.
Proof.
  intros Hc.
  destruct (comprehension_spec env self d modules w d Hc (dict_keys_get d)
              w eq_refl) as (n & evs & Hw1 & _).
  destruct Hc as (todos & mapping & Hs & Ht & Hm).
  unfold check_dependencies, get_ubuntu_todos, get_python_modules, proxy_items,
    proxy_dict, dict_items, deref, bind, ret, raise.
  rewrite Hs, Ht, Hm.
  destruct (comprehension (not_installed env self) d w) as [[u|e] w1];
    [|reflexivity].
  simpl in Hw1. subst w1. simpl heap. rewrite Hs.
  destruct (import_loop env modules [] (advance w n evs)) as [[m|e] w2];
    [|reflexivity].
  destruct (0 <? length u)%nat; [reflexivity|].
  destruct (0 <? length m)%nat; reflexivity.
Qed.

(** The outcome of [check_dependencies] on a checker.  Either both scans
    complete, and the outcome is decided by the two lists in that order;
    or a probe or an import raised a built-in exception, which is then
    the outcome. *)
Lemma check_dependencies_outcome (env : environment) (w : world) self d modules :
  is_checker w self d modules ->
  let outcome := fst (check_dependencies env self w) in
  let missing := List.filter (reports_missing env self w) (dict_keys d) in
  let failed := List.filter (import_caught env) modules in
  ((forall k, k ∈ dict_keys d ->
      exists b, fst (not_installed env self k w) = Return b) /\
   forallb (import_settles env) modules = true /\
   outcome =
     if (0 <? length missing)%nat then
       Raise (UninstalledDependencyError_init (join ", " missing) EmptyString)
     else if (0 <? length failed)%nat then
       Raise (MissingModuleError_init (join ", " failed) EmptyString)
     else Return tt) \/
  (exists b, outcome = Raise (Builtin b) /\
     ((exists k, k ∈ dict_keys d /\
         fst (not_installed env self k w) = Raise (Builtin b)) \/
      ((forall k, k ∈ dict_keys d ->
          exists b, fst (not_installed env self k w) = Return b) /\
       forallb (import_settles env) modules = false))).
Proof.
  intros Hc outcome missing failed. subst outcome missing failed.
  rewrite (check_dependencies_unfold _ _ _ _ _ Hc).
  destruct (comprehension_spec env self d modules w d Hc (dict_keys_get d)
              w eq_refl) as (n & evs & Hw1 & Hr).
  destruct (comprehension (not_installed env self) d w) as [[u|e] w1];
    simpl in Hw1, Hr; subst w1.
  - destruct Hr as (-> & Hall & _).
    destruct (import_loop env modules [] (advance w n evs)) as [[m|e] w2]
      eqn:Hloop.
    + left. pose proof (import_loop_return env modules [] m (advance w n evs))
        as Hret. rewrite Hloop in Hret. destruct (Hret eq_refl) as [-> Hsettle].
      simpl app. split; [exact Hall|]. split; [exact Hsettle|].
      unfold dict_keys.
      destruct (0 <? length (List.filter _ d.*1))%nat; [reflexivity|].
      destruct (0 <? length (List.filter _ modules))%nat; reflexivity.
    + right. destruct (tame_import_loop env modules [] (advance w n evs))
        as [_ Hb]. rewrite Hloop in Hb. destruct (Hb e eq_refl) as [b ->].
      exists b. split; [reflexivity|]. right. split; [exact Hall|].
      destruct (forallb (import_settles env) modules) eqn:Hs; [|reflexivity].
      pose proof (import_loop_settled env modules [] (advance w n evs) Hs) as Hx.
      rewrite Hloop in Hx. discriminate.
  - destruct Hr as (k & Hk & He).
    destruct (tame_not_installed env self k w) as [_ Hb].
    destruct (Hb e He) as [b ->]. right. exists b.
    split; [reflexivity|]. left. eauto.
Qed.

(** When every probe answers, [check_dependencies] has tried to create
    the first process of every probe command by the time it ends. *)
Lemma check_dependencies_launches (env : environment) (w : world) self d modules :
  is_checker w self d modules ->
  (forall k, k ∈ dict_keys d ->
     exists b, fst (not_installed env self k w) = Return b) ->
  exists n evs,
    snd (check_dependencies env self w) = advance w n evs /\
    forall k cmds, k ∈ dict_keys d -> dict_get d k = Some cmds ->
      existsb (is_launch_of (first_stage cmds)) evs = true.
Proof.
  intros Hc Hall. rewrite (check_dependencies_unfold _ _ _ _ _ Hc).
  destruct (comprehension_spec env self d modules w d Hc (dict_keys_get d)
              w eq_refl) as (n & evs & Hw1 & Hr).
  destruct (comprehension (not_installed env self) d w) as [[u|e] w1];
    simpl in Hw1, Hr; subst w1.
  - destruct Hr as (_ & _ & Hlaunch).
    destruct (tame_import_loop env modules [] (advance w n evs))
      as [(n' & evs' & Hw2) _].
    assert (forall w2, w2 = advance (advance w n evs) n' evs' ->
            exists n0 evs0, w2 = advance w n0 evs0 /\
              forall k cmds, k ∈ dict_keys d -> dict_get d k = Some cmds ->
                existsb (is_launch_of (first_stage cmds)) evs0 = true) as Hend.
    { intros w2 ->. rewrite advance_advance. do 2 eexists.
      split; [reflexivity|]. intros k cmds Hk Hget. rewrite existsb_app.
      apply orb_true_iff. left. eapply Hlaunch; eassumption. }
    destruct (import_loop env modules [] (advance w n evs)) as [[m|e] w2];
      simpl in Hw2; [|apply Hend, Hw2].
    destruct (0 <? length u)%nat; [apply Hend, Hw2|].
    destruct (0 <? length m)%nat; apply Hend, Hw2.
  - destruct Hr as (k & Hk & He). destruct (Hall k Hk) as [b Hb]. congruence.
Qed.

(** ** The demonstration machine *)

Lemma checker_world_is_checker (d : pydict) (modules : list string) :
  is_checker (Demo.checker_world d modules) Demo.self d modules.
Proof. exists 1, 0. repeat split; reflexivity. Qed.

(** Building a checker over the caller's dict gives that heap, with an
    empty module tuple. *)
Lemma Test_init_caller_world (d : pydict) :
  Test_init 0 (Demo.caller_world d) = (Return Demo.self, Demo.checker_world d []).
Proof. reflexivity. Qed.

(** ** Claims *)

(** C6. In the branch without a pipe, a probe command whose executable
    exists and exits with a non-zero status makes [not_installed] raise
    [CalledProcessError]: the error propagates, it is not turned into the
    boolean verdict. *)
Theorem C6_plain_nonzero_exit_propagates (env : environment) (w : world)
    self d modules (k : string) (cmds : command) (rc : Z) :
  is_checker w self d modules ->
  dict_get d k = Some cmds ->
  contains "|" cmds = false ->
  launch env None cmds = Runs rc ->
  rc <> 0%Z ->
  fst (not_installed env self k w) = Raise (Builtin (CalledProcessError rc cmds)) /\
  forall b, fst (not_installed env self k w) <> Return b.
Proof.
  intros Hc Hk Hpipe Hrun Hrc.
  rewrite (not_installed_unfold _ _ _ _ _ _ Hc), Hk.
  rewrite run_cmd_plain by exact Hpipe. rewrite Hrun.
  apply Z.eqb_neq in Hrc. rewrite Hrc. simpl. split; [reflexivity|discriminate].
Qed.

Lemma C6_witness :
  fst (not_installed Demo.env Demo.self "header"
         (Demo.checker_world Demo.failing [])) =
    Raise (Builtin (CalledProcessError 2 ["ls"; "/usr/include/cudnn.h"])) /\
  forall b, fst (not_installed Demo.env Demo.self "header"
                   (Demo.checker_world Demo.failing [])) <> Return b.
Proof.
  apply (C6_plain_nonzero_exit_propagates Demo.env
           (Demo.checker_world Demo.failing []) Demo.self Demo.failing []
           "header" ["ls"; "/usr/include/cudnn.h"] 2).
  - apply checker_world_is_checker.
  - reflexivity.
  - reflexivity.
  - reflexivity.
  - discriminate.
Defined.

(** C7. For a name that is not a key of the checklist, [not_installed]
    raises [KeyError] with a message that lists the keys of the
    checklist, and the world is left as it was: no process is created. *)
Theorem C7_unknown_component_raises (env : environment) (w : world)
    self d modules (name : string) :
  is_checker w self d modules ->
  dict_get d name = None ->
  not_installed env self name w =
    (Raise (Builtin (KeyError
       ("Invalid validation component: " +:+ name +:+ ". "
        +:+ "Available components to validate: "
        +:+ "dict_keys([" +:+ join ", " (repr env <$> dict_keys d) +:+ "])"))),
     w).
Proof.
  intros Hc Hk. rewrite (not_installed_unfold _ _ _ _ _ _ Hc), Hk. reflexivity.
Qed.

Lemma C7_witness :
  not_installed Demo.env Demo.self "undefinedKey"
    (Demo.checker_world Demo.todos []) =
    (Raise (Builtin (KeyError
       "Invalid validation component: undefinedKey. Available components to validate: dict_keys(['cuda', 'deepstream', 'driver', 'tensorrt'])")),
     Demo.checker_world Demo.todos []).
Proof.
  apply (C7_unknown_component_raises Demo.env
           (Demo.checker_world Demo.todos []) Demo.self Demo.todos []
           "undefinedKey").
  - apply checker_world_is_checker.
  - reflexivity.
Defined.

(** C1, as the claim has it, fails: in the piped branch a second stage
    that runs to completion with a non-zero status makes the probe raise.
    Here [dpkg -l] and [grep cudnn] both exist and both run; [grep] finds
    nothing, and [not_installed] raises [CalledProcessError] where the
    claim has it return [False]. *)
Lemma C1_counterexample :
  launch Demo.env None ["dpkg"; "-l"] = Runs 0 /\
  launch Demo.env (Some ["dpkg"; "-l"]) ["grep"; "cudnn"] = Runs 1 /\
  fst (not_installed Demo.env Demo.self "cudnn"
         (Demo.checker_world Demo.failing [])) =
    Raise (Builtin (CalledProcessError 1 ["grep"; "cudnn"])) /\
  fst (not_installed Demo.env Demo.self "cudnn"
         (Demo.checker_world Demo.failing [])) <> Return false.
Proof. repeat split. discriminate. Qed.

(** C1, amended.  For a component of the checklist, [not_installed]
    returns [True] exactly when running the probe command raised
    [FileNotFoundError], and [False] exactly when [run_cmd] returned.  In
    the piped branch: a missing first stage gives [True]; once the first
    stage was created, whatever its exit status, a missing second stage
    gives [True], a second stage that exits with zero gives [False], and
    a second stage that exits with a non-zero status raises
    [CalledProcessError] out of the probe. *)
Theorem C1_probe_verdict (env : environment) (w : world) self d modules
    (k : string) (cmds : command) :
  is_checker w self d modules ->
  dict_get d k = Some cmds ->
  let verdict := fst (not_installed env self k w) in
  let ran := fst (run_cmd env self cmds w) in
  (verdict = Return true <->
     exists f, ran = Raise (Builtin (FileNotFoundError f))) /\
  (verdict = Return false <-> ran = Return tt) /\
  (forall before after,
     cmds = before ++ "|" :: after -> contains "|" before = false ->
     match launch env None before with
     | LaunchRaises e =>
         verdict = if isinstance_FileNotFoundError (Builtin e)
                   then Return true else Raise (Builtin e)
     | Runs _ =>
         match launch env (Some before) after with
         | LaunchRaises e =>
             verdict = if isinstance_FileNotFoundError (Builtin e)
                       then Return true else Raise (Builtin e)
         | Runs rc =>
             verdict = if (rc =? 0)%Z then Return false
                       else Raise (Builtin (CalledProcessError rc after))
         end
     end).
Proof.
  intros Hc Hk verdict ran. subst verdict ran.
  rewrite (not_installed_unfold _ _ _ _ _ _ Hc), Hk.
  split; [|split].
  - destruct (run_cmd env self cmds w) as [[[]|e] w1]; simpl.
    + split; [discriminate|intros [f [=]]].
    + destruct e as [[]| |]; simpl; split;
        try discriminate; try (intros [f [=]]); eauto.
  - destruct (run_cmd env self cmds w) as [[[]|e] w1]; simpl.
    + split; reflexivity.
    + destruct (isinstance_FileNotFoundError e); split; discriminate.
  - intros before after -> Hbefore.
    rewrite run_cmd_piped by apply contains_split.
    rewrite index_split by exact Hbefore.
    pose proof (second_stage_split before after Hbefore) as Hafter.
    rewrite index_split in Hafter by exact Hbefore. rewrite Hafter.
    rewrite firstn_app, Nat.sub_diag, firstn_all. simpl firstn.
    rewrite app_nil_r.
    destruct (launch env None before) as [e|rc1].
    + simpl. destruct e; reflexivity.
    + destruct (launch env (Some before) after) as [e|rc2].
      * simpl. destruct e; reflexivity.
      * destruct (rc2 =? 0)%Z; reflexivity.
Qed.

Lemma C1_witness :
  let verdict := fst (not_installed Demo.env Demo.self "opencv"
                        (Demo.checker_world Demo.failing [])) in
  let ran := fst (run_cmd Demo.env Demo.self ["dpkg"; "-l"; "|"; "rg"; "opencv"]
                    (Demo.checker_world Demo.failing [])) in
  (verdict = Return true <->
     exists f, ran = Raise (Builtin (FileNotFoundError f))) /\
  (verdict = Return false <-> ran = Return tt) /\
  (forall before after,
     ["dpkg"; "-l"; "|"; "rg"; "opencv"] = before ++ "|" :: after ->
     contains "|" before = false ->
     match launch Demo.env None before with
     | LaunchRaises e =>
         verdict = if isinstance_FileNotFoundError (Builtin e)
                   then Return true else Raise (Builtin e)
     | Runs _ =>
         match launch Demo.env (Some before) after with
         | LaunchRaises e =>
             verdict = if isinstance_FileNotFoundError (Builtin e)
                       then Return true else Raise (Builtin e)
         | Runs rc =>
             verdict = if (rc =? 0)%Z then Return false
                       else Raise (Builtin (CalledProcessError rc after))
         end
     end).
Proof.
  apply (C1_probe_verdict Demo.env (Demo.checker_world Demo.failing [])
           Demo.self Demo.failing [] "opencv"
           ["dpkg"; "-l"; "|"; "rg"; "opencv"]).
  - apply checker_world_is_checker.
  - reflexivity.
Defined.

(** Item assignment through the checker's own view is refused and
    changes nothing. *)
Lemma setitem_proxy_rejected (w : world) self d modules todos k v :
  is_checker w self d modules ->
  heap w !! self = Some (OTest todos modules) ->
  setitem todos k v w =
    (Raise (Builtin (TypeError
       "'mappingproxy' object does not support item assignment")), w).
Proof.
  intros (t & m & Hs & Ht & Hm) Hs'. rewrite Hs in Hs'. injection Hs' as <-.
  unfold setitem, bind, deref. rewrite Ht. reflexivity.
Qed.

(** Item assignment on the dict the checker was built from is accepted,
    and the checker sees the new dict: the proxy holds no copy. *)
Lemma setitem_original_visible (w : world) self d modules k v :
  is_checker w self d modules ->
  exists mapping w',
    setitem mapping k v w = (Return tt, w') /\
    is_checker w' self (dict_set d k v) modules.
Proof.
  intros (t & m & Hs & Ht & Hm). exists m.
  unfold setitem, bind, deref, store. rewrite Hm. eexists. split; [reflexivity|].
  exists t, m. simpl.
  assert (m <> self) as Hms by (intros ->; congruence).
  assert (m <> t) as Hmt by (intros ->; congruence).
  rewrite !lookup_insert_ne by assumption. rewrite lookup_insert_eq. auto.
Qed.

Lemma dict_get_set (d : pydict) (k : string) (v : command) :
  dict_get (dict_set d k v) k = Some v.
Proof.
  unfold dict_get. induction d as [|[k' v'] rest IH]; simpl.
  - rewrite String.eqb_refl. reflexivity.
  - destruct (String.eqb k' k) eqn:E; simpl.
    + rewrite String.eqb_refl. reflexivity.
    + rewrite E. exact IH.
Qed.

(** C2, at the failing input.  A caller builds a checker over its dict
    [{"cuda": ("nvcc", "--version")}] and keeps the dict.  Before any
    mutation, probing ["payload"] is refused as an unknown component.
    Assigning through the checker's [ubuntu_todos] is rejected.  Assigning
    [d["payload"] = ("sh", "-c", "payload")] on the caller's own dict is
    accepted, and the next probe of ["payload"] runs that command. *)
Theorem C2_mutation_of_original_reaches_probe :
  let caller := Demo.caller_world [("cuda", ["nvcc"; "--version"])] in
  let payload := ["sh"; "-c"; "payload"] in
  fst ((self <- Test_init 0 ;;
        not_installed Demo.env self "payload") caller) =
    Raise (Builtin (KeyError
      "Invalid validation component: payload. Available components to validate: dict_keys(['cuda'])")) /\
  fst ((self <- Test_init 0 ;;
        todos <- get_ubuntu_todos self ;;
        setitem todos "payload" payload) caller) =
    Raise (Builtin (TypeError
      "'mappingproxy' object does not support item assignment")) /\
  fst ((self <- Test_init 0 ;;
        setitem 0 "payload" payload ;;;
        not_installed Demo.env self "payload") caller) = Return false /\
  trace (snd ((self <- Test_init 0 ;;
               setitem 0 "payload" payload ;;;
               not_installed Demo.env self "payload") caller)) =
    [Spawn 0 payload Inherit DevNull DevNull; Wait 0].
Proof. repeat split. Qed.

(** ** Children and their streams *)

Lemma eqb_succ_false (p : nat) : Nat.eqb p (S p) = false.
Proof. apply Nat.eqb_neq. lia. Qed.

(** Without a pipe token the one child is waited for on every path, and
    both its output streams go to the null device. *)
Lemma run_cmd_plain_children (env : environment) self (cmds : command) (w : world) :
  contains "|" cmds = false ->
  exists n evs,
    snd (run_cmd env self cmds w) = advance w n evs /\
    unwaited evs = [] /\ noisy evs = [].
Proof.
  intros Hpipe. rewrite run_cmd_plain by exact Hpipe.
  destruct (launch env None cmds); do 2 eexists; (split; [reflexivity|]);
    simpl; rewrite ?Nat.eqb_refl; split; reflexivity.
Qed.

(** Whenever [run_cmd] returns, its children have been waited for. *)
Lemma run_cmd_returns_waited (env : environment) self (cmds : command) (w : world) :
  fst (run_cmd env self cmds w) = Return tt ->
  exists n evs,
    snd (run_cmd env self cmds w) = advance w n evs /\ unwaited evs = [].
Proof.
  destruct (contains "|" cmds) eqn:Hpipe.
  - rewrite run_cmd_piped by exact Hpipe.
    destruct (launch env None _); [discriminate|].
    destruct (launch env (Some _) _) as [|rc]; [discriminate|].
    destruct (rc =? 0)%Z; [|discriminate]. intros _.
    do 2 eexists. split; [reflexivity|]. simpl.
    rewrite !Nat.eqb_refl, eqb_succ_false. reflexivity.
  - intros _. destruct (run_cmd_plain_children env self cmds w Hpipe)
      as (n & evs & H1 & H2 & _). eauto.
Qed.

(** With a pipe token, once the first stage was created: if [run_cmd]
    raises, it does so with the first child not waited for. *)
Lemma run_cmd_piped_leak (env : environment) self (cmds : command) (w : world)
    (rc1 : Z) (e : exn) :
  contains "|" cmds = true ->
  launch env None (firstn (index "|" cmds) cmds) = Runs rc1 ->
  fst (run_cmd env self cmds w) = Raise e ->
  exists n evs,
    snd (run_cmd env self cmds w) = advance w n evs /\
    unwaited evs = [next_pid w].
Proof.
  intros Hpipe Hfirst. rewrite run_cmd_piped by exact Hpipe. rewrite Hfirst.
  destruct (launch env (Some _) _) as [|rc].
  - intros _. do 2 eexists. split; reflexivity.
  - destruct (rc =? 0)%Z; [discriminate|]. intros _.
    do 2 eexists. split; [reflexivity|]. simpl.
    rewrite Nat.eqb_refl, eqb_succ_false. reflexivity.
Qed.

(** With a pipe token, the first child is created with the parent's own
    stderr, and so is the second. *)
Lemma run_cmd_piped_stderr (env : environment) self (cmds : command) (w : world)
    (rc1 : Z) :
  contains "|" cmds = true ->
  launch env None (firstn (index "|" cmds) cmds) = Runs rc1 ->
  exists n evs,
    snd (run_cmd env self cmds w) = advance w n evs /\
    next_pid w ∈ noisy evs /\
    forall p args i o err, Spawn p args i o err ∈ evs -> err = Inherit.
Proof.
  intros Hpipe Hfirst. rewrite run_cmd_piped by exact Hpipe. rewrite Hfirst.
  destruct (launch env (Some _) _) as [|rc]; [|destruct (rc =? 0)%Z];
    do 2 eexists; (split; [reflexivity|]); (split; [simpl; left|]);
    intros p args i o err Hin;
    repeat (apply elem_of_cons in Hin as [Heq|Hin];
            [first [discriminate Heq | injection Heq; intros; assumption]|]);
    inversion Hin.
Qed.

(** C3, at failing inputs.  The probe [dpkg -l | rg opencv] creates the
    first child, fails to create the second ([rg] is missing) and returns
    [True] with child 0 never waited for.  The probe
    [dpkg -l | grep cudnn] creates both children, waits for the second
    only, and raises [CalledProcessError] with child 0 never waited
    for. *)
Theorem C3_first_stage_not_waited :
  let w := Demo.checker_world Demo.failing [] in
  fst (not_installed Demo.env Demo.self "opencv" w) = Return true /\
  trace (snd (not_installed Demo.env Demo.self "opencv" w)) =
    [Spawn 0 ["dpkg"; "-l"] Inherit Pipe Inherit;
     LaunchFailed ["rg"; "opencv"] (FileNotFoundError "rg")] /\
  unwaited (trace (snd (not_installed Demo.env Demo.self "opencv" w))) = [0] /\
  fst (run_cmd Demo.env Demo.self ["dpkg"; "-l"; "|"; "grep"; "cudnn"] w) =
    Raise (Builtin (CalledProcessError 1 ["grep"; "cudnn"])) /\
  trace (snd (run_cmd Demo.env Demo.self ["dpkg"; "-l"; "|"; "grep"; "cudnn"] w)) =
    [Spawn 0 ["dpkg"; "-l"] Inherit Pipe Inherit;
     Spawn 1 ["grep"; "cudnn"] (PipeOf 0) Pipe Inherit;
     Wait 1] /\
  unwaited (trace (snd (run_cmd Demo.env Demo.self
                          ["dpkg"; "-l"; "|"; "grep"; "cudnn"] w))) = [0].
Proof. repeat split. Qed.

(** C9, at a failing input.  The piped probe [dpkg -l | cat] succeeds,
    and both its children were created with the parent's stderr: neither
    is silenced, where the plain probe [nvcc --version] sends both output
    streams of its child to the null device. *)
Theorem C9_piped_stderr_inherited :
  let w := Demo.checker_world Demo.todos [] in
  fst (not_installed Demo.env Demo.self "driver" w) = Return false /\
  trace (snd (not_installed Demo.env Demo.self "driver" w)) =
    [Spawn 0 ["dpkg"; "-l"] Inherit Pipe Inherit;
     Spawn 1 ["cat"] (PipeOf 0) Pipe Inherit;
     Wait 1; Wait 0] /\
  noisy (trace (snd (not_installed Demo.env Demo.self "driver" w))) = [0; 1] /\
  trace (snd (not_installed Demo.env Demo.self "cuda" w)) =
    [Spawn 0 ["nvcc"; "--version"] Inherit DevNull DevNull; Wait 0] /\
  noisy (trace (snd (not_installed Demo.env Demo.self "cuda" w))) = [].
Proof. repeat split. Qed.

(** ** The aggregate errors *)

Lemma filter_length_pos {A} (f : A -> bool) (l : list A) :
  (0 <? length (List.filter f l))%nat = true <-> exists x, x ∈ l /\ f x = true.
Proof.
  induction l as [|a l IH]; simpl.
  - split; [discriminate|]. intros (x & Hx & _). inversion Hx.
  - destruct (f a) eqn:Ha; simpl.
    + split; [|reflexivity]. intros _. exists a. split; [left|exact Ha].
    + rewrite IH. split; intros (x & Hx & Hfx).
      * exists x. split; [right|]; assumption.
      * apply elem_of_cons in Hx as [->|Hx]; [congruence|eauto].
Qed.

Lemma reports_missing_true (env : environment) self (w : world) (k : string) :
  reports_missing env self w k = true <->
  fst (not_installed env self k w) = Return true.
Proof. unfold reports_missing. apply bool_decide_eq_true. Qed.




(** C5.  [check_dependencies] raises an aggregate error only after the
    full scan: when it raises one of its own two errors, every probe of
    the checklist has run and answered, the first process of every probe
    command was launched during the call, and every import was tried.
    The message of [UninstalledDependencyError] is the names of all
    components whose probe said [True], joined by [", "] in the order of
    the checklist, followed by the fixed text of the exception; the
    message of [MissingModuleError], raised when that list is empty, holds
    the names of all modules whose import was caught, joined in the order
    of the module tuple. *)
Theorem C5_full_scan_before_report (env : environment) (w : world)
    self d modules (err : exn) :
  is_checker w self d modules ->
  fst (check_dependencies env self w) = Raise err ->
  (forall b, err <> Builtin b) ->
  let missing := List.filter (reports_missing env self w) (dict_keys d) in
  let failed := List.filter (import_caught env) modules in
  (forall k, k ∈ dict_keys d ->
     exists b, fst (not_installed env self k w) = Return b) /\
  forallb (import_settles env) modules = true /\
  (exists n evs,
     snd (check_dependencies env self w) = advance w n evs /\
     forall k cmds, k ∈ dict_keys d -> dict_get d k = Some cmds ->
       existsb (is_launch_of (first_stage cmds)) evs = true) /\
  (forall msg, err = UninstalledDependencyError msg ->
     msg = join ", " missing +:+ " not installed ... ") /\
  (forall msg, err = MissingModuleError msg ->
     missing = [] /\
     msg = "python module(s) - '" +:+ join ", " failed
           +:+ "' cannot be found ... ").
Proof.
  intros Hc Hraise Hown missing failed. subst missing failed.
  destruct (check_dependencies_outcome env w self d modules Hc)
    as [(Hall & Hsettle & Hout) | (b & Hout & _)]; rewrite Hout in Hraise;
    [|injection Hraise as <-; destruct (Hown b eq_refl)].
  split; [exact Hall|]. split; [exact Hsettle|].
  split; [apply (check_dependencies_launches env w self d modules Hc Hall)|].
  unfold UninstalledDependencyError_init, MissingModuleError_init in Hraise.
  destruct (List.filter (reports_missing env self w) (dict_keys d))
    as [|k missing]; simpl in Hraise.
  - destruct (0 <? length (List.filter (import_caught env) modules))%nat;
      [|discriminate]. injection Hraise as <-.
    split; [discriminate|]. intros msg [= <-]. split; reflexivity.
  - injection Hraise as <-. split; [|discriminate]. intros msg [= <-].
    reflexivity.
Qed.

Lemma C5_witness :
  let w := Demo.checker_world Demo.todos ["numpy"; "torch"] in
  let missing := List.filter (reports_missing Demo.env Demo.self w)
                   (dict_keys Demo.todos) in
  let failed := List.filter (import_caught Demo.env) ["numpy"; "torch"] in
  (forall k, k ∈ dict_keys Demo.todos ->
     exists b, fst (not_installed Demo.env Demo.self k w) = Return b) /\
  forallb (import_settles Demo.env) ["numpy"; "torch"] = true /\
  (exists n evs,
     snd (check_dependencies Demo.env Demo.self w) = advance w n evs /\
     forall k cmds, k ∈ dict_keys Demo.todos ->
       dict_get Demo.todos k = Some cmds ->
       existsb (is_launch_of (first_stage cmds)) evs = true) /\
  (forall msg,
     UninstalledDependencyError "deepstream, tensorrt not installed ... " =
       UninstalledDependencyError msg ->
     msg = join ", " missing +:+ " not installed ... ") /\
  (forall msg,
     UninstalledDependencyError "deepstream, tensorrt not installed ... " =
       MissingModuleError msg ->
     missing = [] /\
     msg = "python module(s) - '" +:+ join ", " failed
           +:+ "' cannot be found ... ").
Proof.
  apply (C5_full_scan_before_report Demo.env
           (Demo.checker_world Demo.todos ["numpy"; "torch"])
           Demo.self Demo.todos ["numpy"; "torch"]
           (UninstalledDependencyError "deepstream, tensorrt not installed ... ")).
  - apply checker_world_is_checker.
  - reflexivity.
  - discriminate.
Defined.

(** C8, as the claim has it, fails: the loop catches [ImportError], not
    only its module-not-found subclass.  [torch] is found but fails to
    load a shared library, so its import raises a plain [ImportError];
    [check_dependencies] does not let that error through, it reports the
    module as one that cannot be found. *)
Lemma C8_counterexample :
  import_module Demo.env "torch" =
    Some (ImportError "libcudart.so: cannot open shared object file") /\
  fst (check_dependencies Demo.env Demo.self
         (Demo.checker_world [("cuda", ["nvcc"; "--version"])] ["torch"])) =
    Raise (MissingModuleError
             "python module(s) - 'torch' cannot be found ... ").
Proof. split; reflexivity. Qed.

(** C8, amended.  Once every probe has answered, the module scan catches
    exactly the exceptions that are instances of [ImportError]: the
    module-not-found condition and any other [ImportError].  The names
    whose import raised one are collected in order and reported (after
    the system-level report, if there is one); the first import that
    raises anything else ends [check_dependencies] with that very
    exception. *)
Theorem C8_import_errors (env : environment) (w : world) self d modules :
  is_checker w self d modules ->
  (forall k, k ∈ dict_keys d ->
     exists b, fst (not_installed env self k w) = Return b) ->
  let outcome := fst (check_dependencies env self w) in
  let missing := List.filter (reports_missing env self w) (dict_keys d) in
  let failed := List.filter (import_caught env) modules in
  (forall name,
     import_caught env name = true <->
     exists m, import_module env name = Some (ImportError m) \/
               import_module env name = Some (ModuleNotFoundError m)) /\
  (forallb (import_settles env) modules = true ->
     outcome =
       if (0 <? length missing)%nat then
         Raise (UninstalledDependencyError_init (join ", " missing) EmptyString)
       else if (0 <? length failed)%nat then
         Raise (MissingModuleError_init (join ", " failed) EmptyString)
       else Return tt) /\
  (forall pre name post e,
     modules = pre ++ name :: post ->
     forallb (import_settles env) pre = true ->
     import_module env name = Some e ->
     isinstance_ImportError (Builtin e) = false ->
     outcome = Raise (Builtin e)).
Proof.
  intros Hc Hall outcome missing failed. subst outcome missing failed.
  split; [|split].
  - intros name. unfold import_caught.
    destruct (import_module env name) as [e|].
    + destruct e; simpl; split; try discriminate; eauto;
        intros [m [[=]|[=]]].
    + split; [discriminate|intros [m [[=]|[=]]]].
  - intros Hsettle.
    destruct (check_dependencies_outcome env w self d modules Hc)
      as [(_ & _ & Hout) | (b & _ & [(k & Hk & Hraise) | [_ Hns]])].
    + exact Hout.
    + destruct (Hall k Hk) as [b' Hb']. congruence.
    + congruence.
  - intros pre name post e -> Hpre Hname He.
    rewrite (check_dependencies_unfold _ _ _ _ _ Hc).
    destruct (comprehension_spec env self d (pre ++ name :: post) w d Hc
                (dict_keys_get d) w eq_refl) as (n & evs & Hw1 & Hr).
    destruct (comprehension (not_installed env self) d w) as [[u|e'] w1];
      simpl in Hw1, Hr.
    + pose proof (import_loop_propagates env pre post [] name e w1
                    Hpre Hname He) as Hloop.
      destruct (import_loop env (pre ++ name :: post) [] w1) as [[m|e'] w2];
        simpl in Hloop; [discriminate|]. simpl. congruence.
    + destruct Hr as (k & Hk & Hraise). destruct (Hall k Hk) as [b Hb].
      congruence.
Qed.

Lemma C8_witness :
  let w := Demo.checker_world [("cuda", ["nvcc"; "--version"])]
             ["numpy"; "torch"; "nonexistent_mod_xyz"; "broken"; "scipy"] in
  fst (check_dependencies Demo.env Demo.self w) =
    Raise (Builtin (OtherError "SyntaxError" "invalid syntax")).
Proof.
  refine (proj2 (proj2
    (C8_import_errors Demo.env
       (Demo.checker_world [("cuda", ["nvcc"; "--version"])]
          ["numpy"; "torch"; "nonexistent_mod_xyz"; "broken"; "scipy"])
       Demo.self [("cuda", ["nvcc"; "--version"])]
       ["numpy"; "torch"; "nonexistent_mod_xyz"; "broken"; "scipy"]
       (checker_world_is_checker _ _) _))
    ["numpy"; "torch"; "nonexistent_mod_xyz"] "broken" ["scipy"]
    (OtherError "SyntaxError" "invalid syntax")
    eq_refl eq_refl eq_refl eq_refl).
  intros k Hk. apply elem_of_cons in Hk as [->|Hk]; [|inversion Hk].
  exists false. reflexivity.
Defined.

(** ** The module tuple *)

Lemma Test_init_instance (ubuntu_commands self : loc) (w w1 : world) :
  Test_init ubuntu_commands w = (Return self, w1) ->
  exists todos, heap w1 !! self = Some (OTest todos []).
Proof.
  unfold Test_init, MappingProxyType, bind, deref, alloc, raise.
  destruct (heap w !! ubuntu_commands) as [[d|m|t ms]|]; simpl;
    try discriminate;
    intros [= <- <-]; simpl; rewrite lookup_insert_eq; eauto.
Qed.

(** Item assignment never touches an instance. *)
Lemma setitem_instance (w : world) (self target : loc) k v todos modules :
  heap w !! self = Some (OTest todos modules) ->
  heap (snd (setitem target k v w)) !! self = Some (OTest todos modules).
Proof.
  intros Hs. unfold setitem, bind, deref, store, raise.
  destruct (heap w !! target) as [[d|m|t ms]|] eqn:Ht; simpl; try exact Hs.
  rewrite lookup_insert_ne; [exact Hs|]. intros ->. congruence.
Qed.

(** No call a client can make changes the attributes of an instance. *)
Lemma perform_instance (env : environment) (self : loc) (c : call) (w : world)
    (l : loc) todos modules :
  heap w !! l = Some (OTest todos modules) ->
  heap (perform env self c w) !! l = Some (OTest todos modules).
Proof.
  intros Hl. destruct c as [cmds|component| |target k v]; simpl.
  - destruct (tame_run_cmd env self cmds w) as [(n & evs & ->) _]. exact Hl.
  - destruct (tame_not_installed env self component w) as [(n & evs & ->) _].
    exact Hl.
  - destruct (framed_check_dependencies env self w) as (n & evs & ->). exact Hl.
  - apply setitem_instance, Hl.
Qed.

Lemma perform_all_instance (env : environment) (self : loc) (cs : list call)
    (w : world) (l : loc) todos modules :
  heap w !! l = Some (OTest todos modules) ->
  heap (perform_all env self cs w) !! l = Some (OTest todos modules).
Proof.
  revert w. induction cs as [|c cs IH]; intros w Hl; [exact Hl|].
  simpl. apply IH, perform_instance, Hl.
Qed.

Lemma bind_not_missing {A B} (m : M A) (f : A -> M B) (w : world) (msg : string) :
  tame m ->
  (forall a n evs,
     fst (f a (advance w n evs)) <> Raise (MissingModuleError msg)) ->
  fst (bind m f w) <> Raise (MissingModuleError msg).
Proof.
  intros Hm Hf. unfold bind. destruct (Hm w) as [(n & evs & Hs) Hr].
  destruct (m w) as [[a|e] w1]; simpl in Hs, Hr; subst w1.
  - apply Hf.
  - destruct (Hr e eq_refl) as [b ->]. discriminate.
Qed.

(** With an empty module tuple, [check_dependencies] cannot raise
    [MissingModuleError]. *)
Lemma check_dependencies_no_modules (env : environment) (self : loc) (w : world)
    todos (msg : string) :
  heap w !! self = Some (OTest todos []) ->
  fst (check_dependencies env self w) <> Raise (MissingModuleError msg).
Proof.
  intros Hs. unfold check_dependencies.
  apply bind_not_missing; [auto with tame|]. intros t n1 evs1.
  apply bind_not_missing; [auto with tame|]. intros items n2 evs2.
  apply bind_not_missing; [auto using tame_comprehension with tame|].
  intros u n3 evs3.
  unfold get_python_modules, deref, advance. unfold bind. simpl.
  rewrite Hs. simpl.
  destruct (0 <? length u)%nat; discriminate.
Qed.

(** C10.  A freshly constructed checker has the empty tuple as its
    [python_modules]; whatever calls are made afterwards (the methods of
    the class, item assignments on any object), the attribute is still the
    empty tuple; and [check_dependencies] on it never raises
    [MissingModuleError]. *)
Theorem C10_module_check_vacuous (env : environment) (w w1 : world)
    (ubuntu_commands self : loc) (calls : list call) :
  Test_init ubuntu_commands w = (Return self, w1) ->
  (exists todos, heap w1 !! self = Some (OTest todos [])) /\
  (exists todos,
     heap (perform_all env self calls w1) !! self = Some (OTest todos [])) /\
  (forall msg,
     fst (check_dependencies env self (perform_all env self calls w1))
       <> Raise (MissingModuleError msg)).
Proof.
  intros Hinit. destruct (Test_init_instance _ _ _ _ Hinit) as [todos Hs].
  pose proof (perform_all_instance env self calls w1 self todos [] Hs) as Hs'.
  split; [eauto|]. split; [eauto|]. intros msg.
  eapply check_dependencies_no_modules, Hs'.
Qed.

Lemma C10_witness :
  (exists todos,
     heap (Demo.checker_world Demo.todos []) !! Demo.self = Some (OTest todos [])) /\
  (exists todos,
     heap (perform_all Demo.env Demo.self
             [CallNotInstalled "cuda"; CallSetItem 0 "x" ["sh"];
              CallCheckDependencies; CallRunCmd ["dpkg"; "-l"; "|"; "cat"]]
             (Demo.checker_world Demo.todos [])) !! Demo.self =
       Some (OTest todos [])) /\
  (forall msg,
     fst (check_dependencies Demo.env Demo.self
            (perform_all Demo.env Demo.self
               [CallNotInstalled "cuda"; CallSetItem 0 "x" ["sh"];
                CallCheckDependencies; CallRunCmd ["dpkg"; "-l"; "|"; "cat"]]
               (Demo.checker_world Demo.todos [])))
       <> Raise (MissingModuleError msg)).
Proof.
  apply (C10_module_check_vacuous Demo.env (Demo.caller_world Demo.todos)
           (Demo.checker_world Demo.todos []) 0 Demo.self).
  reflexivity.
Defined.

(** * Further properties of the checker *)

(** ** Events of a probe and of the scans *)

Lemma advance_inj (w : world) n n' evs evs' :
  advance w n evs = advance w n' evs' -> n = n' /\ evs = evs'.
Proof.
  unfold advance. intros [= Hn Hevs]. split; [lia|].
  eapply app_inv_head, Hevs.
Qed.

(** A probe on a checker creates at most two processes and imports
    nothing. *)
Lemma not_installed_events (env : environment) (w : world) self d modules k :
  is_checker w self d modules ->
  exists n evs,
    snd (not_installed env self k w) = advance w n evs /\
    n <= 2 /\ existsb is_import evs = false.
Proof.
  intros Hc. rewrite (not_installed_unfold _ _ _ _ _ _ Hc).
  destruct (dict_get d k) as [cmds|].
  - destruct (contains "|" cmds) eqn:Hpipe.
    + rewrite run_cmd_piped by exact Hpipe.
      destruct (launch env None _) as [e|rc1];
        [destruct e|
         destruct (launch env (Some _) _) as [e|rc];
           [destruct e|destruct (rc =? 0)%Z]];
        do 2 eexists; (split; [reflexivity|]); split; (lia || reflexivity).
    + rewrite run_cmd_plain by exact Hpipe.
      destruct (launch env None cmds) as [e|rc];
        [destruct e|destruct (rc =? 0)%Z];
        do 2 eexists; (split; [reflexivity|]); split; (lia || reflexivity).
  - exists 0, []. simpl. rewrite advance_0_nil. repeat split. lia.
Qed.

(** The scan of the checklist creates at most two processes per item and
    imports nothing. *)
Lemma comprehension_events (env : environment) self d modules (w0 : world)
    (items : list (string * command)) :
  is_checker w0 self d modules ->
  forall w, heap w = heap w0 ->
  exists n evs,
    snd (comprehension (not_installed env self) items w) = advance w n evs /\
    n <= 2 * length items /\ existsb is_import evs = false.
Proof.
  intros Hc0. induction items as [|[k c] rest IH]; intros w Hh.
  - exists 0, []. simpl. rewrite advance_0_nil. repeat split. lia.
  - pose proof (is_checker_heap _ _ _ _ _ Hh Hc0) as Hc.
    destruct (not_installed_events env w self d modules k Hc)
      as (n1 & evs1 & Hw1 & Hn1 & Hi1).
    rewrite comprehension_cons.
    destruct (not_installed env self k w) as [[b|e] w1]; simpl in Hw1; subst w1.
    + destruct (IH (advance w n1 evs1) Hh) as (n2 & evs2 & Hw2 & Hn2 & Hi2).
      exists (n2 + n1), (evs1 ++ evs2).
      destruct (comprehension (not_installed env self) rest (advance w n1 evs1))
        as [[tail|e] w2]; simpl in Hw2; subst w2; simpl;
        rewrite advance_advance, existsb_app, Hi1, Hi2;
        (split; [reflexivity|]); split; (lia || reflexivity).
    + exists n1, evs1. simpl. split; [reflexivity|]. split; [lia|exact Hi1].
Qed.

(** The first probe that raises ends the scan with its exception. *)
Lemma comprehension_first_raise (env : environment) self d modules (w0 : world)
    (pre post : list (string * command)) (k : string) (c : command) (e : exn) :
  is_checker w0 self d modules ->
  (forall k', k' ∈ pre.*1 ->
     exists b, fst (not_installed env self k' w0) = Return b) ->
  fst (not_installed env self k w0) = Raise e ->
  forall w, heap w = heap w0 ->
  fst (comprehension (not_installed env self) (pre ++ (k, c) :: post) w) =
    Raise e.
Proof.
  intros Hc0 Hpre Hk. induction pre as [|[k' c'] pre IH]; intros w Hh; simpl app;
    rewrite comprehension_cons.
  - pose proof (not_installed_fst env w0 w self d modules k Hc0 Hh) as Hf.
    rewrite Hk in Hf.
    destruct (not_installed env self k w) as [[b|e'] w1]; simpl in Hf;
      [discriminate|]. simpl. congruence.
  - pose proof (is_checker_heap _ _ _ _ _ Hh Hc0) as Hc.
    pose proof (not_installed_fst env w0 w self d modules k' Hc0 Hh) as Hf.
    destruct (Hpre k') as [b Hb]; [left|]. rewrite Hb in Hf.
    destruct (not_installed_events env w self d modules k' Hc)
      as (n1 & evs1 & Hw1 & _).
    destruct (not_installed env self k' w) as [[b'|e'] w1]; simpl in Hf, Hw1;
      [|discriminate]. subst w1.
    assert (fst (comprehension (not_installed env self)
                   (pre ++ (k, c) :: post) (advance w n1 evs1)) = Raise e) as Hrest.
    { apply IH; [|exact Hh]. intros k'' Hk''. apply Hpre. right. exact Hk''. }
    destruct (comprehension (not_installed env self) (pre ++ (k, c) :: post)
                (advance w n1 evs1)) as [[tail|e''] w2]; simpl in Hrest;
      [discriminate|]. simpl. congruence.
Qed.

(** The import loop creates no process; when every import settles, it has
    tried every module, in order. *)
Lemma import_loop_no_process (env : environment) (mods acc : list string)
    (w : world) :
  exists evs, snd (import_loop env mods acc w) = advance w 0 evs.
Proof.
  revert acc w. induction mods as [|name rest IH]; intros acc w.
  - exists []. simpl. rewrite advance_0_nil. reflexivity.
  - rewrite import_loop_cons.
    destruct (import_module env name) as [e|];
      [destruct (isinstance_ImportError e)|];
      try (edestruct IH as [evs ->]; rewrite advance_advance); eauto.
Qed.

Lemma import_loop_trace (env : environment) (mods acc : list string) (w : world) :
  forallb (import_settles env) mods = true ->
  snd (import_loop env mods acc w) = advance w 0 (ImportModule <$> mods).
Proof.
  revert acc w. induction mods as [|name rest IH]; intros acc w; simpl forallb.
  - intros _. simpl. rewrite advance_0_nil. reflexivity.
  - intros [Hn Hrest]%andb_true_iff. rewrite import_loop_cons.
    unfold import_settles in Hn.
    destruct (import_module env name) as [e|]; [rewrite Hn|];
      rewrite IH by exact Hrest; rewrite advance_advance; reflexivity.
Qed.

(** ** Probes *)

(** X1.  A probe command without a pipe token makes one attempt to create
    a process, from the whole command.  The child, if any, is created
    with its stdin inherited and with both its stdout and its stderr on
    the null device, and it has been waited for when [not_installed]
    ends, whether it returns or raises. *)
Theorem X1_plain_probe_waited_and_silent (env : environment) (w : world)
    self d modules (k : string) (cmds : command) :
  is_checker w self d modules ->
  dict_get d k = Some cmds ->
  contains "|" cmds = false ->
  exists n evs,
    snd (not_installed env self k w) = advance w n evs /\
    n <= 1 /\
    List.filter is_launch evs = List.filter (is_launch_of cmds) evs /\
    length (List.filter is_launch evs) = 1 /\
    (forall p args stdin stdout stderr,
       Spawn p args stdin stdout stderr ∈ evs ->
       p = next_pid w /\ args = cmds /\
       stdin = Inherit /\ stdout = DevNull /\ stderr = DevNull) /\
    unwaited evs = [] /\ noisy evs = [].
Proof.
  intros Hc Hk Hpipe. rewrite (not_installed_unfold _ _ _ _ _ _ Hc), Hk.
  rewrite run_cmd_plain by exact Hpipe.
  destruct (launch env None cmds) as [e|rc];
    [destruct e|destruct (rc =? 0)%Z];
    do 2 eexists; (split; [reflexivity|]); simpl;
    rewrite ?Nat.eqb_refl, ?bool_decide_eq_true_2 by reflexivity;
    (split; [lia|]); (split; [reflexivity|]); (split; [reflexivity|]);
    (split; [|split; reflexivity]);
    intros p args i o err Hin;
    repeat (apply elem_of_cons in Hin as [Heq|Hin];
            [first [discriminate Heq
                   | injection Heq; intros; subst; repeat split]|]);
    inversion Hin.
Qed.

Lemma X1_witness :
  exists n evs,
    snd (not_installed Demo.env Demo.self "header"
           (Demo.checker_world Demo.failing [])) =
      advance (Demo.checker_world Demo.failing []) n evs /\
    n <= 1 /\
    List.filter is_launch evs =
      List.filter (is_launch_of ["ls"; "/usr/include/cudnn.h"]) evs /\
    length (List.filter is_launch evs) = 1 /\
    (forall p args stdin stdout stderr,
       Spawn p args stdin stdout stderr ∈ evs ->
       p = next_pid (Demo.checker_world Demo.failing []) /\
       args = ["ls"; "/usr/include/cudnn.h"] /\
       stdin = Inherit /\ stdout = DevNull /\ stderr = DevNull) /\
    unwaited evs = [] /\ noisy evs = [].
Proof.
  apply (X1_plain_probe_waited_and_silent Demo.env
           (Demo.checker_world Demo.failing []) Demo.self Demo.failing []
           "header" ["ls"; "/usr/include/cudnn.h"]).
  - apply checker_world_is_checker.
  - reflexivity.
  - reflexivity.
Defined.

(** X2.  The verdict of a probe command without a pipe token: [True]
    when creating the process raises [FileNotFoundError], [False] when the
    child exits with zero; any other exception of process creation (a
    [PermissionError], say) propagates as it is, and a non-zero exit
    raises [CalledProcessError]. *)
Theorem X2_plain_probe_verdict (env : environment) (w : world)
    self d modules (k : string) (cmds : command) :
  is_checker w self d modules ->
  dict_get d k = Some cmds ->
  contains "|" cmds = false ->
  fst (not_installed env self k w) =
    match launch env None cmds with
    | LaunchRaises e =>
        if isinstance_FileNotFoundError (Builtin e) then Return true
        else Raise (Builtin e)
    | Runs rc =>
        if (rc =? 0)%Z then Return false
        else Raise (Builtin (CalledProcessError rc cmds))
    end.
Proof.
  intros Hc Hk Hpipe. rewrite (not_installed_unfold _ _ _ _ _ _ Hc), Hk.
  rewrite run_cmd_plain by exact Hpipe.
  destruct (launch env None cmds) as [e|rc];
    [destruct e|destruct (rc =? 0)%Z]; reflexivity.
Qed.

Lemma X2_witness :
  fst (not_installed Demo.env Demo.self "tensorrt"
         (Demo.checker_world Demo.todos [])) =
    match launch Demo.env None ["trtexec"; "--help"] with
    | LaunchRaises e =>
        if isinstance_FileNotFoundError (Builtin e) then Return true
        else Raise (Builtin e)
    | Runs rc =>
        if (rc =? 0)%Z then Return false
        else Raise (Builtin (CalledProcessError rc ["trtexec"; "--help"]))
    end.
Proof.
  apply (X2_plain_probe_verdict Demo.env (Demo.checker_world Demo.todos [])
           Demo.self Demo.todos [] "tensorrt" ["trtexec"; "--help"]).
  - apply checker_world_is_checker.
  - reflexivity.
  - reflexivity.
Defined.

(** X3.  [run_cmd] splits a command at its first pipe token only.  When
    both stages can be created, exactly two processes are created: the
    first from the words before that token, the second from all the words
    after it, later pipe tokens included as plain arguments, with its
    stdin on the stdout pipe of the first. *)
Theorem X3_split_at_first_pipe (env : environment) (self : loc) (w : world)
    (before after : command) (rc1 rc2 : Z) :
  contains "|" before = false ->
  launch env None before = Runs rc1 ->
  launch env (Some before) after = Runs rc2 ->
  exists evs,
    snd (run_cmd env self (before ++ "|" :: after) w) =
      advance w 2
        (Spawn (next_pid w) before Inherit Pipe Inherit
         :: Spawn (S (next_pid w)) after (PipeOf (next_pid w)) Pipe Inherit
         :: evs) /\
    existsb is_launch evs = false.
Proof.
  intros Hbefore H1 H2.
  rewrite run_cmd_piped by apply contains_split.
  pose proof (second_stage_split before after Hbefore) as Hafter.
  rewrite index_split in Hafter by exact Hbefore.
  rewrite index_split by exact Hbefore. rewrite Hafter.
  rewrite firstn_app, Nat.sub_diag, firstn_all. simpl firstn.
  rewrite app_nil_r, H1, H2.
  destruct (rc2 =? 0)%Z; eexists; split; reflexivity.
Qed.

Lemma X3_witness :
  exists evs,
    snd (run_cmd Demo.env Demo.self
           (["dpkg"; "-l"] ++ "|" :: ["cat"; "|"; "grep"; "cuda"])
           (Demo.checker_world Demo.todos [])) =
      advance (Demo.checker_world Demo.todos []) 2
        (Spawn 0 ["dpkg"; "-l"] Inherit Pipe Inherit
         :: Spawn 1 ["cat"; "|"; "grep"; "cuda"] (PipeOf 0) Pipe Inherit
         :: evs) /\
    existsb is_launch evs = false.
Proof.
  apply (X3_split_at_first_pipe Demo.env Demo.self
           (Demo.checker_world Demo.todos [])
           ["dpkg"; "-l"] ["cat"; "|"; "grep"; "cuda"] 0 0).
  - reflexivity.
  - reflexivity.
  - reflexivity.
Defined.

(** X4.  A pipe token at either end of the command hands an empty
    argument vector to process creation.  Where creating a process from
    an empty vector raises [e]: a command that starts with the token
    raises [e] with no process created and the second stage never tried;
    a command that ends with the token creates the first stage, raises
    [e] for the second, and leaves the first child not waited for. *)
Theorem X4_pipe_at_either_end (env : environment) (self : loc) (w : world)
    (e : builtin_exn) :
  (forall producer, launch env producer [] = LaunchRaises e) ->
  (forall after,
     run_cmd env self ("|" :: after) w =
       (Raise (Builtin e), advance w 0 [LaunchFailed [] e])) /\
  (forall before rc1,
     contains "|" before = false ->
     launch env None before = Runs rc1 ->
     run_cmd env self (before ++ ["|"]) w =
       (Raise (Builtin e),
        advance w 1 [Spawn (next_pid w) before Inherit Pipe Inherit;
                     LaunchFailed [] e])).
Proof.
  intros Hempty. split.
  - intros after. rewrite run_cmd_piped by reflexivity. simpl.
    rewrite Hempty. reflexivity.
  - intros before rc1 Hbefore H1.
    rewrite run_cmd_piped by apply contains_split.
    pose proof (second_stage_split before [] Hbefore) as Hafter.
    rewrite index_split in Hafter by exact Hbefore.
    rewrite index_split by exact Hbefore. rewrite Hafter.
    rewrite firstn_app, Nat.sub_diag, firstn_all. simpl firstn.
    rewrite app_nil_r, H1, Hempty. reflexivity.
Qed.

Lemma X4_witness :
  (forall after,
     run_cmd Demo.env Demo.self ("|" :: after)
       (Demo.checker_world Demo.todos []) =
       (Raise (Builtin (OtherError "IndexError" "list index out of range")),
        advance (Demo.checker_world Demo.todos []) 0
          [LaunchFailed [] (OtherError "IndexError" "list index out of range")])) /\
  (forall before rc1,
     contains "|" before = false ->
     launch Demo.env None before = Runs rc1 ->
     run_cmd Demo.env Demo.self (before ++ ["|"])
       (Demo.checker_world Demo.todos []) =
       (Raise (Builtin (OtherError "IndexError" "list index out of range")),
        advance (Demo.checker_world Demo.todos []) 1
          [Spawn 0 before Inherit Pipe Inherit;
           LaunchFailed [] (OtherError "IndexError" "list index out of range")])).
Proof.
  apply (X4_pipe_at_either_end Demo.env Demo.self
           (Demo.checker_world Demo.todos [])
           (OtherError "IndexError" "list index out of range")).
  intros producer. reflexivity.
Defined.

(** X14.  Whenever a probe answers [False], every child it created has
    been waited for. *)
Theorem X14_false_verdict_all_waited (env : environment) (w : world)
    self d modules (k : string) :
  is_checker w self d modules ->
  fst (not_installed env self k w) = Return false ->
  exists n evs,
    snd (not_installed env self k w) = advance w n evs /\ unwaited evs = [].
Proof.
  intros Hc. rewrite (not_installed_unfold _ _ _ _ _ _ Hc).
  destruct (dict_get d k) as [cmds|]; [|discriminate].
  pose proof (run_cmd_returns_waited env self cmds w) as Hw.
  destruct (run_cmd env self cmds w) as [[[]|e] w1]; simpl in *.
  - intros _. apply Hw. reflexivity.
  - destruct (isinstance_FileNotFoundError e); discriminate.
Qed.

Lemma X14_witness :
  exists n evs,
    snd (not_installed Demo.env Demo.self "driver"
           (Demo.checker_world Demo.todos [])) =
      advance (Demo.checker_world Demo.todos []) n evs /\
    unwaited evs = [].
Proof.
  apply (X14_false_verdict_all_waited Demo.env
           (Demo.checker_world Demo.todos []) Demo.self Demo.todos [] "driver").
  - apply checker_world_is_checker.
  - reflexivity.
Defined.

(** ** What the methods leave alone *)

(** X5.  On a checker, one probe creates at most two processes, and
    [check_dependencies] creates at most two per entry of the
    checklist. *)
Theorem X5_process_bound (env : environment) (w : world) self d modules :
  is_checker w self d modules ->
  (forall k, exists n evs,
     snd (not_installed env self k w) = advance w n evs /\ n <= 2) /\
  exists n evs,
    snd (check_dependencies env self w) = advance w n evs /\
    n <= 2 * length d.
Proof.
  intros Hc. split.
  - intros k. destruct (not_installed_events env w self d modules k Hc)
      as (n & evs & Hw & Hn & _). eauto.
  - rewrite (check_dependencies_unfold _ _ _ _ _ Hc).
    destruct (comprehension_events env self d modules w d Hc w eq_refl)
      as (n & evs & Hw1 & Hn & _).
    destruct (comprehension (not_installed env self) d w) as [[u|e] w1];
      simpl in Hw1; subst w1; [|simpl; eauto].
    destruct (import_loop_no_process env modules [] (advance w n evs))
      as (evs' & Hw2).
    destruct (import_loop env modules [] (advance w n evs)) as [[m|e] w2];
      simpl in Hw2; subst w2; rewrite advance_advance;
      [destruct (0 <? length u)%nat; [|destruct (0 <? length m)%nat]|];
      simpl; eauto.
Qed.

Lemma X5_witness :
  (forall k, exists n evs,
     snd (not_installed Demo.env Demo.self k
            (Demo.checker_world Demo.todos [])) =
       advance (Demo.checker_world Demo.todos []) n evs /\ n <= 2) /\
  exists n evs,
    snd (check_dependencies Demo.env Demo.self
           (Demo.checker_world Demo.todos [])) =
      advance (Demo.checker_world Demo.todos []) n evs /\
    n <= 2 * length Demo.todos.
Proof.
  apply (X5_process_bound Demo.env (Demo.checker_world Demo.todos [])
           Demo.self Demo.todos []).
  apply checker_world_is_checker.
Defined.

(** X6.  In any world, on any object, none of [run_cmd], [not_installed]
    and [check_dependencies] allocates or writes a heap object; [run_cmd]
    and [not_installed] raise built-in exceptions only, never one of the
    two aggregate errors. *)
Theorem X6_methods_leave_heap (env : environment) (self : loc) (w : world)
    (cmds : command) (k : string) :
  (heap (snd (run_cmd env self cmds w)) = heap w /\
   next_loc (snd (run_cmd env self cmds w)) = next_loc w) /\
  (heap (snd (not_installed env self k w)) = heap w /\
   next_loc (snd (not_installed env self k w)) = next_loc w) /\
  (heap (snd (check_dependencies env self w)) = heap w /\
   next_loc (snd (check_dependencies env self w)) = next_loc w) /\
  (forall e, fst (run_cmd env self cmds w) = Raise e -> exists b, e = Builtin b) /\
  (forall e, fst (not_installed env self k w) = Raise e ->
     exists b, e = Builtin b).
Proof.
  destruct (tame_run_cmd env self cmds w) as [(n1 & evs1 & ->) Hr1].
  destruct (tame_not_installed env self k w) as [(n2 & evs2 & ->) Hr2].
  destruct (framed_check_dependencies env self w) as (n3 & evs3 & ->).
  repeat split; assumption.
Qed.

(** ** The dependency check as a whole *)

(** X7.  On a checker, [check_dependencies] returns normally exactly when
    every probe of the checklist answers [False] and every listed module
    imports without raising. *)
Theorem X7_returns_iff_all_clear (env : environment) (w : world)
    self d modules :
  is_checker w self d modules ->
  fst (check_dependencies env self w) = Return tt <->
  (forall k, k ∈ dict_keys d ->
     fst (not_installed env self k w) = Return false) /\
  (forall name, name ∈ modules -> import_module env name = None).
Proof.
  intros Hc.
  destruct (check_dependencies_outcome env w self d modules Hc)
    as [(Hall & Hsettle & Hout) | (b & Hout & Hwhy)]; rewrite Hout; clear Hout.
  - destruct (0 <? length (List.filter (reports_missing env self w) _))%nat
      eqn:Hm;
      [|destruct (0 <? length (List.filter (import_caught env) modules))%nat
          eqn:Hf].
    + split; [discriminate|]. intros [Hfalse _].
      apply filter_length_pos in Hm as (k & Hk & Hrep).
      apply reports_missing_true in Hrep. rewrite (Hfalse k Hk) in Hrep.
      discriminate.
    + split; [discriminate|]. intros [_ Hnone].
      apply filter_length_pos in Hf as (name & Hname & Hcaught).
      unfold import_caught in Hcaught. rewrite (Hnone name Hname) in Hcaught.
      discriminate.
    + split; [intros _|reflexivity]. split.
      * intros k Hk. destruct (Hall k Hk) as [[|] Hb]; [|exact Hb].
        assert ((0 <? length (List.filter (reports_missing env self w)
                                (dict_keys d)))%nat = true) as Hpos.
        { apply filter_length_pos. exists k. split; [exact Hk|].
          apply reports_missing_true, Hb. }
        congruence.
      * intros name Hname.
        assert (import_settles env name = true) as Hs.
        { eapply forallb_forall in Hsettle; [exact Hsettle|].
          apply list_elem_of_In, Hname. }
        destruct (import_caught env name) eqn:Hcaught.
        -- assert ((0 <? length (List.filter (import_caught env) modules))%nat
                   = true) as Hpos by (apply filter_length_pos; eauto).
           congruence.
        -- unfold import_settles in Hs. unfold import_caught in Hcaught.
           destruct (import_module env name); [congruence|reflexivity].
  - split; [discriminate|]. intros [Hfalse Hnone].
    destruct Hwhy as [(k & Hk & Hraise) | [_ Hns]].
    + rewrite (Hfalse k Hk) in Hraise. discriminate.
    + assert (forallb (import_settles env) modules = true) as Hs.
      { apply forallb_forall. intros name Hname%list_elem_of_In.
        unfold import_settles. rewrite (Hnone name Hname). reflexivity. }
      congruence.
Qed.

Lemma X7_witness :
  fst (check_dependencies Demo.env Demo.self
         (Demo.checker_world
            [("cuda", ["nvcc"; "--version"]); ("driver", ["dpkg"; "-l"; "|"; "cat"])]
            ["numpy"])) = Return tt <->
  (forall k,
     k ∈ dict_keys
           [("cuda", ["nvcc"; "--version"]); ("driver", ["dpkg"; "-l"; "|"; "cat"])] ->
     fst (not_installed Demo.env Demo.self k
            (Demo.checker_world
               [("cuda", ["nvcc"; "--version"]);
                ("driver", ["dpkg"; "-l"; "|"; "cat"])]
               ["numpy"])) = Return false) /\
  (forall name, name ∈ ["numpy"] -> import_module Demo.env name = None).
Proof.
  apply (X7_returns_iff_all_clear Demo.env
           (Demo.checker_world
              [("cuda", ["nvcc"; "--version"]);
               ("driver", ["dpkg"; "-l"; "|"; "cat"])]
              ["numpy"])
           Demo.self
           [("cuda", ["nvcc"; "--version"]); ("driver", ["dpkg"; "-l"; "|"; "cat"])]
           ["numpy"]).
  apply checker_world_is_checker.
Defined.

(** X8.  With an empty checklist, [check_dependencies] creates no
    process and cannot raise [UninstalledDependencyError]; with no module
    listed either, it returns at once and leaves the world as it was. *)
Theorem X8_empty_checklist (env : environment) (w : world) self modules :
  is_checker w self [] modules ->
  (exists evs, snd (check_dependencies env self w) = advance w 0 evs) /\
  (forall msg,
     fst (check_dependencies env self w) <> Raise (UninstalledDependencyError msg)) /\
  (modules = [] -> check_dependencies env self w = (Return tt, w)).
Proof.
  intros Hc. rewrite (check_dependencies_unfold _ _ _ _ _ Hc). simpl.
  split; [|split].
  - destruct (import_loop_no_process env modules [] w) as (evs & Hw).
    pose proof (tame_import_loop env modules [] w) as [_ Hb].
    destruct (import_loop env modules [] w) as [[m|e] w2]; simpl in Hw; subst w2;
      [destruct (0 <? length m)%nat|]; simpl; eauto.
  - intros msg. pose proof (tame_import_loop env modules [] w) as [_ Hb].
    destruct (import_loop env modules [] w) as [[m|e] w2].
    + destruct (0 <? length m)%nat; discriminate.
    + destruct (Hb e eq_refl) as [b ->]. discriminate.
  - intros ->. reflexivity.
Qed.

Lemma X8_witness :
  (exists evs,
     snd (check_dependencies Demo.env Demo.self
            (Demo.checker_world [] ["numpy"; "scipy"])) =
       advance (Demo.checker_world [] ["numpy"; "scipy"]) 0 evs) /\
  (forall msg,
     fst (check_dependencies Demo.env Demo.self
            (Demo.checker_world [] ["numpy"; "scipy"]))
       <> Raise (UninstalledDependencyError msg)) /\
  (["numpy"; "scipy"] = [] ->
   check_dependencies Demo.env Demo.self
     (Demo.checker_world [] ["numpy"; "scipy"]) =
     (Return tt, Demo.checker_world [] ["numpy"; "scipy"])).
Proof.
  apply (X8_empty_checklist Demo.env
           (Demo.checker_world [] ["numpy"; "scipy"]) Demo.self
           ["numpy"; "scipy"]).
  apply checker_world_is_checker.
Defined.

(** X9.  A probe that raises ends [check_dependencies] at once with that
    exception: components already found missing are not reported, and no
    module import is tried. *)
Theorem X9_raising_probe_aborts (env : environment) (w : world) self
    (pre post : list (string * command)) (k : string) (c : command)
    (modules : list string) (e : exn) :
  is_checker w self (pre ++ (k, c) :: post) modules ->
  (forall k', k' ∈ pre.*1 ->
     exists b, fst (not_installed env self k' w) = Return b) ->
  fst (not_installed env self k w) = Raise e ->
  fst (check_dependencies env self w) = Raise e /\
  exists n evs,
    snd (check_dependencies env self w) = advance w n evs /\
    existsb is_import evs = false.
Proof.
  intros Hc Hpre Hk. rewrite (check_dependencies_unfold _ _ _ _ _ Hc).
  pose proof (comprehension_first_raise env self _ modules w pre post k c e
                Hc Hpre Hk w eq_refl) as Hraise.
  destruct (comprehension_events env self _ modules w (pre ++ (k, c) :: post)
              Hc w eq_refl) as (n & evs & Hw1 & _ & Hi).
  destruct (comprehension (not_installed env self) (pre ++ (k, c) :: post) w)
    as [[u|e'] w1]; simpl in Hraise, Hw1; [discriminate|]. subst w1. simpl.
  split; [congruence|eauto].
Qed.

Lemma X9_witness :
  let d := [("deepstream", ["deepstream-app"; "--version"]);
            ("cudnn", ["dpkg"; "-l"; "|"; "grep"; "cudnn"]);
            ("cuda", ["nvcc"; "--version"])] in
  let w := Demo.checker_world d ["numpy"] in
  fst (check_dependencies Demo.env Demo.self w) =
    Raise (Builtin (CalledProcessError 1 ["grep"; "cudnn"])) /\
  exists n evs,
    snd (check_dependencies Demo.env Demo.self w) = advance w n evs /\
    existsb is_import evs = false.
Proof.
  apply (X9_raising_probe_aborts Demo.env
           (Demo.checker_world
              [("deepstream", ["deepstream-app"; "--version"]);
               ("cudnn", ["dpkg"; "-l"; "|"; "grep"; "cudnn"]);
               ("cuda", ["nvcc"; "--version"])] ["numpy"])
           Demo.self
           [("deepstream", ["deepstream-app"; "--version"])]
           [("cuda", ["nvcc"; "--version"])]
           "cudnn" ["dpkg"; "-l"; "|"; "grep"; "cudnn"] ["numpy"]
           (Builtin (CalledProcessError 1 ["grep"; "cudnn"]))).
  - apply checker_world_is_checker.
  - intros k' Hk'. apply elem_of_cons in Hk' as [->|Hk']; [|inversion Hk'].
    exists true. reflexivity.
  - reflexivity.
Defined.

(** X10.  The module scan does not depend on the outcome of the probes:
    when every probe answers and every import settles, every listed
    module has been imported, in the order of the tuple and after all the
    probes, also when a component was found missing and the call ends
    with [UninstalledDependencyError]. *)
Theorem X10_imports_follow_probes (env : environment) (w : world)
    self d modules :
  is_checker w self d modules ->
  (forall k, k ∈ dict_keys d ->
     exists b, fst (not_installed env self k w) = Return b) ->
  forallb (import_settles env) modules = true ->
  exists n evs,
    snd (check_dependencies env self w) =
      advance w n (evs ++ (ImportModule <$> modules)) /\
    existsb is_import evs = false.
Proof.
  intros Hc Hall Hsettle. rewrite (check_dependencies_unfold _ _ _ _ _ Hc).
  destruct (comprehension_spec env self d modules w d Hc (dict_keys_get d)
              w eq_refl) as (n0 & evs0 & _ & Hr).
  destruct (comprehension_events env self d modules w d Hc w eq_refl)
    as (n & evs & Hw1 & _ & Hi).
  destruct (comprehension (not_installed env self) d w) as [[u|e] w1];
    simpl in Hr, Hw1.
  - subst w1.
    pose proof (import_loop_trace env modules [] (advance w n evs) Hsettle)
      as Hw2.
    destruct (import_loop env modules [] (advance w n evs)) as [[m|e] w2];
      simpl in Hw2; subst w2; rewrite advance_advance;
      [destruct (0 <? length u)%nat; [|destruct (0 <? length m)%nat]|];
      simpl; eauto.
  - destruct Hr as (k & Hk & Hraise). destruct (Hall k Hk) as [b Hb].
    congruence.
Qed.

Lemma X10_witness :
  let w := Demo.checker_world Demo.todos ["numpy"; "torch"] in
  exists n evs,
    snd (check_dependencies Demo.env Demo.self w) =
      advance w n (evs ++ (ImportModule <$> ["numpy"; "torch"])) /\
    existsb is_import evs = false.
Proof.
  apply (X10_imports_follow_probes Demo.env
           (Demo.checker_world Demo.todos ["numpy"; "torch"])
           Demo.self Demo.todos ["numpy"; "torch"]).
  - apply checker_world_is_checker.
  - intros k Hk.
    repeat (apply elem_of_cons in Hk as [->|Hk];
            [eexists; reflexivity|]).
    inversion Hk.
  - reflexivity.
Defined.

(** ** Construction and the shared dict *)

Lemma dict_get_set_ne (d : pydict) (k k' : string) (v : command) :
  k' <> k -> dict_get (dict_set d k v) k' = dict_get d k'.
Proof.
  intros Hne. unfold dict_get. induction d as [|[k0 v0] rest IH]; simpl.
  - destruct (String.eqb_spec k k'); [congruence|reflexivity].
  - destruct (String.eqb_spec k0 k) as [->|Hk0]; simpl.
    + destruct (String.eqb_spec k k'); [congruence|reflexivity].
    + destruct (String.eqb_spec k0 k'); [reflexivity|exact IH].
Qed.

(** X11.  Building a checker over a dict that lives in the heap succeeds
    and returns a fresh instance that is a checker over the contents of
    that dict, with no module listed.  Construction runs nothing: no
    process, no import, no event; and every object that was there stays
    as it was. *)
Theorem X11_construction (w : world) (ubuntu_commands : loc) (d : pydict) :
  heap w !! ubuntu_commands = Some (ODict d) ->
  ubuntu_commands < next_loc w ->
  exists self w1,
    Test_init ubuntu_commands w = (Return self, w1) /\
    next_loc w <= self /\
    is_checker w1 self d [] /\
    trace w1 = trace w /\ next_pid w1 = next_pid w /\
    forall l, l < next_loc w -> heap w1 !! l = heap w !! l.
Proof.
  intros Hd Hlt. unfold Test_init, MappingProxyType, bind, deref, alloc.
  rewrite Hd. simpl. do 2 eexists. split; [reflexivity|].
  split; [lia|]. split; [|split; [reflexivity|split; [reflexivity|]]].
  - exists (next_loc w), ubuntu_commands. simpl.
    rewrite lookup_insert_eq.
    rewrite (lookup_insert_ne _ (S (next_loc w)) (next_loc w)) by lia.
    rewrite lookup_insert_eq.
    rewrite !lookup_insert_ne by lia. auto.
  - intros l Hl. simpl. rewrite !lookup_insert_ne by lia. reflexivity.
Qed.

Lemma X11_witness :
  exists self w1,
    Test_init 0 (Demo.caller_world Demo.todos) = (Return self, w1) /\
    next_loc (Demo.caller_world Demo.todos) <= self /\
    is_checker w1 self Demo.todos [] /\
    trace w1 = trace (Demo.caller_world Demo.todos) /\
    next_pid w1 = next_pid (Demo.caller_world Demo.todos) /\
    forall l, l < next_loc (Demo.caller_world Demo.todos) ->
      heap w1 !! l = heap (Demo.caller_world Demo.todos) !! l.
Proof.
  apply (X11_construction (Demo.caller_world Demo.todos) 0 Demo.todos).
  - reflexivity.
  - simpl. lia.
Defined.

(** X12.  The attribute that [__init__] builds is read-only.  After
    [Test(ubuntu_commands)] has returned an instance, reading its
    [ubuntu_todos] succeeds, and item assignment through what it returns
    raises [TypeError] and changes nothing, whatever the key and the
    value; item assignment on the instance itself is refused as well. *)
Theorem X12_view_refuses_assignment (w w1 : world)
    (ubuntu_commands self : loc) :
  Test_init ubuntu_commands w = (Return self, w1) ->
  exists todos,
    get_ubuntu_todos self w1 = (Return todos, w1) /\
    (forall k v,
       setitem todos k v w1 =
         (Raise (Builtin (TypeError
            "'mappingproxy' object does not support item assignment")), w1)) /\
    (forall k v,
       setitem self k v w1 =
         (Raise (Builtin (TypeError
            "'Test' object does not support item assignment")), w1)).
Proof.
  unfold Test_init, MappingProxyType, bind, deref, alloc, raise.
  destruct (heap w !! ubuntu_commands) as [[d|m|t ms]|]; simpl;
    try discriminate;
    intros [= <- <-]; exists (next_loc w);
    unfold get_ubuntu_todos, setitem, bind, deref; simpl;
    rewrite lookup_insert_eq; simpl;
    rewrite (lookup_insert_ne _ (S (next_loc w)) (next_loc w)) by lia;
    rewrite lookup_insert_eq; repeat split.
Qed.

Lemma X12_witness :
  exists todos,
    get_ubuntu_todos Demo.self (Demo.checker_world Demo.todos []) =
      (Return todos, Demo.checker_world Demo.todos []) /\
    (forall k v,
       setitem todos k v (Demo.checker_world Demo.todos []) =
         (Raise (Builtin (TypeError
            "'mappingproxy' object does not support item assignment")),
          Demo.checker_world Demo.todos [])) /\
    (forall k v,
       setitem Demo.self k v (Demo.checker_world Demo.todos []) =
         (Raise (Builtin (TypeError
            "'Test' object does not support item assignment")),
          Demo.checker_world Demo.todos [])).
Proof.
  apply (X12_view_refuses_assignment (Demo.caller_world Demo.todos)
           (Demo.checker_world Demo.todos []) 0 Demo.self).
  reflexivity.
Defined.

(** X13.  A checker shares the dict it was built from.  An item
    assignment [d[k] = v] on that dict is accepted, and afterwards the
    checker is a checker over the updated dict: [k] is a known component
    whose probe runs [v], and every other component keeps its command. *)
Theorem X13_original_dict_is_shared (env : environment) (w : world)
    self d modules (k : string) (v : command) :
  is_checker w self d modules ->
  exists mapping w',
    heap w !! mapping = Some (ODict d) /\
    setitem mapping k v w = (Return tt, w') /\
    is_checker w' self (dict_set d k v) modules /\
    fst (not_installed env self k w') =
      match fst (run_cmd env self v w') with
      | Return _ => Return false
      | Raise e =>
          if isinstance_FileNotFoundError e then Return true else Raise e
      end /\
    forall k', k' <> k -> dict_get (dict_set d k v) k' = dict_get d k'.
Proof.
  intros (t & m & Hs & Ht & Hm).
  assert (m <> self) as Hms by (intros ->; congruence).
  assert (m <> t) as Hmt by (intros ->; congruence).
  exists m. unfold setitem, bind, deref, store. rewrite Hm. eexists.
  split; [reflexivity|]. split; [reflexivity|].
  assert (is_checker
            {| heap := <[m := ODict (dict_set d k v)]> (heap w);
               next_loc := next_loc w; next_pid := next_pid w;
               trace := trace w |} self (dict_set d k v) modules) as Hc'.
  { exists t, m. simpl. rewrite !lookup_insert_ne by assumption.
    rewrite lookup_insert_eq. auto. }
  split; [exact Hc'|]. split.
  - rewrite (not_installed_unfold _ _ _ _ _ _ Hc'), dict_get_set.
    destruct (run_cmd env self v _) as [[[]|e] w2]; simpl; [reflexivity|].
    destruct (isinstance_FileNotFoundError e); reflexivity.
  - intros k' Hne. apply dict_get_set_ne, Hne.
Qed.

Lemma X13_witness :
  exists mapping w',
    heap (Demo.checker_world Demo.todos []) !! mapping = Some (ODict Demo.todos) /\
    setitem mapping "extra" ["sh"; "-c"; "x"] (Demo.checker_world Demo.todos []) =
      (Return tt, w') /\
    is_checker w' Demo.self
      (dict_set Demo.todos "extra" ["sh"; "-c"; "x"]) [] /\
    fst (not_installed Demo.env Demo.self "extra" w') =
      match fst (run_cmd Demo.env Demo.self ["sh"; "-c"; "x"] w') with
      | Return _ => Return false
      | Raise e =>
          if isinstance_FileNotFoundError e then Return true else Raise e
      end /\
    forall k', k' <> "extra" ->
      dict_get (dict_set Demo.todos "extra" ["sh"; "-c"; "x"]) k' =
        dict_get Demo.todos k'.
Proof.
  apply (X13_original_dict_is_shared Demo.env
           (Demo.checker_world Demo.todos []) Demo.self Demo.todos []
           "extra" ["sh"; "-c"; "x"]).
  apply checker_world_is_checker.
Defined.
